(** * traffic-whisper-app: route acquisition, traffic classification and
      the destination search box

    A shallow embedding of the decision-making code of three React
    components:

    - [TrafficMap]        (TrafficMap.tsx: [getRoutes], [displayRoutes],
                          [selectRoute]),
    - [SearchInput]       (SearchInput.tsx: the debounce timer body,
                          [searchSuggestions], [handleKeyDown],
                          [selectSuggestion], [handleSearch]),
    - [OptimizationPanel] (OptimizationPanel.tsx: [optimizeRoute],
                          [addWaypoint], [removeWaypoint]),
    - [ApiKeyInput] and [Index] (the access token).

    Modelling conventions.

    - A component's [useState] cells are the fields of a [State] record; a
      handler is a state transformer that also yields the list of the
      effects it performed, in the order it performed them (requests sent,
      notifications shown, map renderings, callbacks).  Each handler runs on
      the state of the latest render: what it reads is that render's values
      (the state read at its start), and what its setters write is seen by
      the handlers that follow.
    - A theorem about one call of an [async] handler runs the call through
      its [await]s to its end; the sessions of the map component run
      [getRoutes] in parts, from one [await] to the next, with other
      handlers in between.
    - The outside world (the mapping service, the map widget) is a record of
      answers, [World]; a handler is a function of it.
    - [try]/[catch]/[finally], [return] and thrown exceptions are kept by a
      small effect monad, [Eff].
    - JS numbers are IEEE-754 doubles: [PrimFloat.float].  The modelled code
      never computes with them, it passes them on.
    - JS strings are [string]s, one [ascii] per UTF-16 code unit (so the
      model covers the strings whose code units are below 256). *)

From Stdlib Require Import List String Ascii ZArith Bool Lia PrimFloat.
From Stdlib Require Import DecimalString.
Import ListNotations.
Open Scope string_scope.
Open Scope list_scope.

(** ** JavaScript values used by the components *)

Module JS.

Definition number : Type := float.

(** Truthiness of a string: every string but the empty one. *)
Definition truthy (s : string) : bool :=
  match s with
  | EmptyString => false
  | String _ _ => true
  end.

(** [Array.prototype.includes] on an array of strings. *)
Fixpoint includes (l : list string) (x : string) : bool :=
  match l with
  | [] => false
  | y :: l' => if String.eqb y x then true else includes l' x
  end.

(** [Array.prototype.some]. *)
Fixpoint some {A : Type} (l : list A) (p : A -> bool) : bool :=
  match l with
  | [] => false
  | y :: l' => if p y then true else some l' p
  end.

(** [Array.prototype.find]. *)
Fixpoint find {A : Type} (l : list A) (p : A -> bool) : option A :=
  match l with
  | [] => None
  | y :: l' => if p y then Some y else find l' p
  end.

(** [Array.prototype.map] with the element's index as second argument. *)
Fixpoint map_from {A B : Type} (i : nat) (f : A -> nat -> B) (l : list A)
  : list B :=
  match l with
  | [] => []
  | y :: l' => f y i :: map_from (S i) f l'
  end.

Definition mapi {A B : Type} (f : A -> nat -> B) (l : list A) : list B :=
  map_from 0 f l.

(** The white space and line terminators [String.prototype.trim] strips,
    among the code units below 256: TAB, LF, VT, FF, CR, SP and NBSP. *)
Definition isWhiteSpace (c : ascii) : bool :=
  let n := nat_of_ascii c in
  ((9 <=? n) && (n <=? 13) || (n =? 32) || (n =? 160))%nat.

Fixpoint trimStart (s : string) : string :=
  match s with
  | EmptyString => EmptyString
  | String c s' => if isWhiteSpace c then trimStart s' else s
  end.

(** [trimEnd s] drops the white space that ends [s]: a white space is kept
    only when something that is kept follows it. *)
Fixpoint trimEnd (s : string) : string :=
  match s with
  | EmptyString => EmptyString
  | String c s' =>
      match trimEnd s' with
      | EmptyString => if isWhiteSpace c then EmptyString
                       else String c EmptyString
      | r => String c r
      end
  end.

Definition trim (s : string) : string := trimEnd (trimStart s).

(** The decimal numeral of an array index, as a template literal prints it. *)
Definition toString (n : nat) : string :=
  NilEmpty.string_of_uint (Nat.to_uint n).

(** [String.prototype.split] with a one-character separator: the pieces
    between the separators, in order (a single piece when there is none). *)
Fixpoint split (sep : ascii) (s : string) : list string :=
  match s with
  | EmptyString => [EmptyString]
  | String c s' =>
      if Ascii.eqb c sep then EmptyString :: split sep s'
      else
        match split sep s' with
        | piece :: pieces => String c piece :: pieces
        | [] => [String c EmptyString]
        end
  end.

(** [Array.prototype.join]. *)
Fixpoint join (sep : string) (l : list string) : string :=
  match l with
  | [] => EmptyString
  | piece :: l' =>
      match l' with
      | [] => piece
      | _ :: _ => (piece ++ sep ++ join sep l')%string
      end
  end.

End JS.

(** ** The mapping service's answers, as far as the components read them *)

Definition LngLat : Type := JS.number * JS.number.

Module Mapbox.

(** A geocoding feature; SearchInput.tsx calls it [Suggestion]. *)
Record Feature : Type := {
  id : string;
  place_name : string;
  center : LngLat;
  place_type : list string
}.

(** The body of a geocoding answer.  [features] is absent in an error body
    (the components test [data.features] before they use it). *)
Record GeocodeData : Type := { features : option (list Feature) }.

Record Geometry : Type := { coordinates : list LngLat }.

(** [route.legs[0]?.annotation?.congestion]: a leg may lack its annotation
    and an annotation its congestion list. *)
Record Annotation : Type := { congestion : option (list string) }.

Record Leg : Type := { annotation : option Annotation }.

Record Route : Type := {
  geometry : Geometry;
  duration : JS.number;
  distance : JS.number;
  legs : list Leg
}.

Record DirectionsData : Type := { routes : option (list Route) }.

Record TripWaypoint : Type := { waypoint_index : Z }.

(** A trip's [geometry] and [duration] are [trip_geometry] and
    [trip_duration] here (a route has fields of the same names). *)
Record Trip : Type := {
  trip_geometry : Geometry;
  trip_duration : JS.number;
  waypoints : option (list TripWaypoint)
}.

Record TripsData : Type := { trips : option (list Trip) }.

End Mapbox.

(** ** Route candidates (interface [RouteData] of TrafficMap.tsx) *)

Inductive TrafficLevel : Type := free | light | moderate | heavy.

Definition TrafficLevel_eqb (a b : TrafficLevel) : bool :=
  match a, b with
  | free, free | light, light | moderate, moderate | heavy, heavy => true
  | _, _ => false
  end.

Record RouteData : Type := {
  geometry : Mapbox.Geometry;
  duration : JS.number;
  distance : JS.number;
  congestion : list string;
  hasTraffic : bool;
  trafficLevel : TrafficLevel
}.

(** ** Effects *)

(** The requests the components send.  A request is kept by the parts of
    its URL that vary: the geocoding query with its [limit] and [types]
    parameters, the two ends of a directions request, the coordinate chain
    of an optimization request. *)
Inductive Request : Type :=
| Geocoding (query : string) (limit : nat) (types : list string)
| Directions (origin dest : LngLat)
| OptimizedTrips (chain : list LngLat).

(** The notifications ([toast] calls), by their titles. *)
Inductive Toast : Type :=
| DestinationNotFound      (* "Destination Not Found" *)
| TrafficDetected          (* "Traffic Detected!": an alternative exists *)
| RouteError               (* "Route Error": "Unable to get route. ..." *)
| NeedMoreWaypoints        (* "Need more waypoints" *)
| RouteOptimized (trip_duration : JS.number)  (* "Route Optimized!" *)
| OptimizationFailed.      (* "Optimization failed" *)

Inductive Event : Type :=
| Fetch (r : Request)
| Notify (t : Toast)
| Render (routeData : list RouteData) (selected : nat)
| OptimizedRoute (path : list LngLat) (names : list string)
| PreventDefault
| ConsoleError.

(** What comes back for a request: [fetch] rejects, [response.json()]
    rejects, or a body is read. *)
Inductive Fetched (A : Type) : Type :=
| NetworkFailure
| ParseFailure
| Body (a : A).

Arguments NetworkFailure {A}.
Arguments ParseFailure {A}.
Arguments Body {A} a.

Definition isFailure {A : Type} (f : Fetched A) : bool :=
  match f with
  | Body _ => false
  | _ => true
  end.

Record World : Type := {
  geocoding : string -> nat -> list string -> Fetched Mapbox.GeocodeData;
  directions : LngLat -> LngLat -> Fetched Mapbox.DirectionsData;
  optimized_trips : list LngLat -> Fetched Mapbox.TripsData;
  (** whether the map widget throws while it draws these routes *)
  map_throws : list RouteData -> bool
}.

(** The request [r] fails in the world [w] by a network or a parse failure. *)
Definition fails (w : World) (r : Request) : bool :=
  match r with
  | Geocoding q l t => isFailure (geocoding w q l t)
  | Directions o d => isFailure (directions w o d)
  | OptimizedTrips c => isFailure (optimized_trips w c)
  end.

(** How a block of statements ends. *)
Inductive Completion (A : Type) : Type :=
| Normal (a : A)     (* it ran to its end *)
| Returned           (* it left through a [return] statement *)
| Thrown.            (* it left through an exception *)

Arguments Normal {A} a.
Arguments Returned {A}.
Arguments Thrown {A}.

Definition Eff (S A : Type) : Type := S -> Completion A * S * list Event.

Definition ret {S A : Type} (a : A) : Eff S A := fun s => (Normal a, s, []).

Definition bind {S A B : Type} (m : Eff S A) (k : A -> Eff S B) : Eff S B :=
  fun s =>
    match m s with
    | (Normal a, s1, t1) =>
        match k a s1 with
        | (c, s2, t2) => (c, s2, t1 ++ t2)
        end
    | (Returned, s1, t1) => (Returned, s1, t1)
    | (Thrown, s1, t1) => (Thrown, s1, t1)
    end.

Notation "x <- m ;; k" := (bind m (fun x => k))
  (at level 61, m at next level, right associativity).
Notation "m ;; k" := (bind m (fun _ => k))
  (at level 61, right associativity).

Definition get {S : Type} : Eff S S := fun s => (Normal s, s, []).
Definition modify {S : Type} (f : S -> S) : Eff S unit :=
  fun s => (Normal tt, f s, []).
Definition emit {S : Type} (e : Event) : Eff S unit :=
  fun s => (Normal tt, s, [e]).
Definition return_ {S A : Type} : Eff S A := fun s => (Returned, s, []).
Definition throw {S A : Type} : Eff S A := fun s => (Thrown, s, []).

Definition toast {S : Type} (t : Toast) : Eff S unit := emit (Notify t).

(** [await fetch(url)] followed by [await response.json()]. *)
Definition fetch_json {S A : Type} (r : Request) (answer : Fetched A)
  : Eff S A :=
  emit (Fetch r) ;;
  match answer with
  | Body a => ret a
  | NetworkFailure => throw
  | ParseFailure => throw
  end.

(** [try { body } catch { handler } finally { fin }]: the handler runs when
    the body throws, [fin] runs in every case, and the statement ends as the
    body (or the handler) did unless [fin] itself leaves abruptly. *)
Definition try_catch_finally {S : Type} (body handler fin : Eff S unit)
  : Eff S unit :=
  fun s =>
    let '(c1, s1, t1) := body s in
    let '(c2, s2, t2) :=
      match c1 with
      | Thrown => handler s1
      | _ => (c1, s1, [])
      end in
    let '(c3, s3, t3) := fin s2 in
    (match c3 with Normal _ => c2 | _ => c3 end, s3, t1 ++ t2 ++ t3).

Definition try_catch {S : Type} (body handler : Eff S unit) : Eff S unit :=
  try_catch_finally body handler (ret tt).

(** The body of a function: a [return] ends the call normally. *)
Definition function_ {S : Type} (body : Eff S unit) : Eff S unit :=
  fun s =>
    match body s with
    | (Returned, s1, t1) => (Normal tt, s1, t1)
    | r => r
    end.

(** The body of an [async] function called without [await]: the caller gets
    a promise and goes on, also when the body throws. *)
Definition async_ {S : Type} (body : Eff S unit) : Eff S unit :=
  fun s =>
    match body s with
    | (_, s1, t1) => (Normal tt, s1, t1)
    end.

(** Running a child's own effects, or its parent's, on the pair of their
    states. *)
Definition own {S P A : Type} (m : Eff S A) : Eff (S * P) A :=
  fun sp =>
    match m (fst sp) with
    | (c, s1, t1) => (c, (s1, snd sp), t1)
    end.

Definition parent {S P A : Type} (m : Eff P A) : Eff (S * P) A :=
  fun sp =>
    match m (snd sp) with
    | (c, p1, t1) => (c, (fst sp, p1), t1)
    end.

(** The three parts of a run. *)
Definition completion {S A : Type} (r : Completion A * S * list Event)
  : Completion A := fst (fst r).
Definition final {S A : Type} (r : Completion A * S * list Event) : S :=
  snd (fst r).
Definition trace {S A : Type} (r : Completion A * S * list Event)
  : list Event := snd r.

(** ** TrafficMap.tsx *)

Module TrafficMap.

Record State : Type := {
  userLocation : option LngLat;
  routes : list RouteData;
  selectedRouteIndex : nat;
  destination : string;
  isLoading : bool;
  showOptimization : bool
}.

(** The state of the first render: the [useState] defaults. *)
Definition initial : State := {|
  userLocation := None;
  routes := [];
  selectedRouteIndex := 0;
  destination := "";
  isLoading := false;
  showOptimization := false
|}.

Definition setUserLocation (v : option LngLat) : Eff State unit :=
  modify (fun s => {|
    userLocation := v;
    routes := routes s;
    selectedRouteIndex := selectedRouteIndex s;
    destination := destination s;
    isLoading := isLoading s;
    showOptimization := showOptimization s |}).

Definition setRoutes (v : list RouteData) : Eff State unit :=
  modify (fun s => {|
    userLocation := userLocation s;
    routes := v;
    selectedRouteIndex := selectedRouteIndex s;
    destination := destination s;
    isLoading := isLoading s;
    showOptimization := showOptimization s |}).

Definition setSelectedRouteIndex (v : nat) : Eff State unit :=
  modify (fun s => {|
    userLocation := userLocation s;
    routes := routes s;
    selectedRouteIndex := v;
    destination := destination s;
    isLoading := isLoading s;
    showOptimization := showOptimization s |}).

Definition setDestination (v : string) : Eff State unit :=
  modify (fun s => {|
    userLocation := userLocation s;
    routes := routes s;
    selectedRouteIndex := selectedRouteIndex s;
    destination := v;
    isLoading := isLoading s;
    showOptimization := showOptimization s |}).

Definition setIsLoading (v : bool) : Eff State unit :=
  modify (fun s => {|
    userLocation := userLocation s;
    routes := routes s;
    selectedRouteIndex := selectedRouteIndex s;
    destination := destination s;
    isLoading := v;
    showOptimization := showOptimization s |}).

(** [route.legs[0]?.annotation?.congestion || []] *)
Definition firstLegCongestion (route : Mapbox.Route) : list string :=
  match nth_error (Mapbox.legs route) 0 with
  | None => []
  | Some leg =>
      match Mapbox.annotation leg with
      | None => []
      | Some a =>
          match Mapbox.congestion a with
          | None => []
          | Some tags => tags
          end
      end
  end.

(** [congestionLevels.some(level =>
       ['moderate', 'heavy', 'severe'].includes(level))] *)
Definition hasTrafficOf (congestionLevels : list string) : bool :=
  JS.some congestionLevels
    (fun level => JS.includes ["moderate"; "heavy"; "severe"] level).

(** "Determine overall traffic level": starts at ['free'], then the
    [if]/[else if] chain over [includes]. *)
Definition trafficLevelOf (congestionLevels : list string) : TrafficLevel :=
  if JS.includes congestionLevels "severe" then heavy
  else if JS.includes congestionLevels "heavy" then moderate
  else if JS.includes congestionLevels "moderate" then light
  else free.

(** The callback of [routeData.routes.map] in [getRoutes]. *)
Definition processRoute (route : Mapbox.Route) : RouteData :=
  let congestionLevels := firstLegCongestion route in
  {| geometry := Mapbox.geometry route;
     duration := Mapbox.duration route;
     distance := Mapbox.distance route;
     congestion := congestionLevels;
     hasTraffic := hasTrafficOf congestionLevels;
     trafficLevel := trafficLevelOf congestionLevels |}.

(** [processedRoutes.find(route =>
       !route.hasTraffic || route.trafficLevel === 'free')] *)
Definition betterRoute (processedRoutes : list RouteData)
  : option RouteData :=
  JS.find processedRoutes
    (fun route =>
       negb (hasTraffic route) || TrafficLevel_eqb (trafficLevel route) free).

(** "Check for traffic and suggest alternatives": the condition under which
    [getRoutes] shows the "Traffic Detected!" notification.  [getRoutes]
    reaches it with a non-empty list only. *)
Definition suggestsAlternative (processedRoutes : list RouteData) : bool :=
  match processedRoutes with
  | [] => false
  | first :: _ =>
      if hasTraffic first && (1 <? List.length processedRoutes)%nat then
        match betterRoute processedRoutes with
        | Some _ => true
        | None => false
        end
      else false
  end.

(** [displayRoutes]: the routes are handed to the map widget, which
    highlights the one at [selected], the selected index of the render the
    calling handler belongs to; the widget may throw. *)
Definition displayRoutes (w : World) (selected : nat)
  (routeData : list RouteData) : Eff State unit :=
  emit (Render routeData selected) ;;
  if map_throws w routeData then throw else ret tt.

(** "Get routes with traffic data". *)
Definition getRoutes (w : World) (destination : string)
  (coordinates : option LngLat) : Eff State unit :=
  async_ (
    st <- get ;;
    match userLocation st with
    | None => return_
    | Some origin =>
        if negb (JS.truthy destination) then return_
        else
          setIsLoading true ;;
          setDestination destination ;;
          try_catch_finally
            (destCoords <-
               (match coordinates with
                | Some c => ret c
                | None =>
                    (* "If coordinates not provided, geocode the
                       destination" *)
                    geocodeData <-
                      fetch_json (Geocoding destination 1 [])
                        (geocoding w destination 1 []) ;;
                    match Mapbox.features geocodeData with
                    | None => throw
                    | Some [] =>
                        toast DestinationNotFound ;;
                        setIsLoading false ;;
                        return_
                    | Some (f :: _) => ret (Mapbox.center f)
                    end
                end) ;;
             (* "Get multiple route alternatives with traffic" *)
             routeData <-
               fetch_json (Directions origin destCoords)
                 (directions w origin destCoords) ;;
             match Mapbox.routes routeData with
             | Some (r :: rs) =>
                 let processedRoutes := map processRoute (r :: rs) in
                 setRoutes processedRoutes ;;
                 displayRoutes w (selectedRouteIndex st) processedRoutes ;;
                 if suggestsAlternative processedRoutes
                 then toast TrafficDetected
                 else ret tt
             | _ => ret tt
             end)
            (toast RouteError)
            (setIsLoading false)
    end).

Definition selectRoute (w : World) (index : nat) : Eff State unit :=
  function_ (
    st <- get ;;
    setSelectedRouteIndex index ;;
    if (0 <? List.length (routes st))%nat
    then displayRoutes w (selectedRouteIndex st) (routes st)
    else ret tt).

Definition setShowOptimization (v : bool) : Eff State unit :=
  modify (fun s => {|
    userLocation := userLocation s;
    routes := routes s;
    selectedRouteIndex := selectedRouteIndex s;
    destination := destination s;
    isLoading := isLoading s;
    showOptimization := v |}).

(** The success callback of [getCurrentPosition]. *)
Definition handlePosition (coords : LngLat) : Eff State unit :=
  setUserLocation (Some coords).

(** The button that opens and closes the optimization panel. *)
Definition toggleOptimization : Eff State unit :=
  st <- get ;;
  setShowOptimization (negb (showOptimization st)).

(** The route [handleOptimizedRoute] draws for the path of an optimized
    trip. *)
Definition optimizedRoute (coordinates : list LngLat) : RouteData :=
  {| geometry := {| Mapbox.coordinates := coordinates |};
     duration := 0%float;
     distance := 0%float;
     congestion := [];
     hasTraffic := false;
     trafficLevel := free |}.

(** "Handle optimized route from optimization panel".  [mapPresent] says
    whether [map.current] is set; the single route is drawn as the selected
    one (index 0), and the widget may throw while it draws. *)
Definition handleOptimizedRoute (mapPresent : bool) (w : World)
  (coordinates : list LngLat) (waypoints : list string) : Eff State unit :=
  function_ (
    if negb mapPresent then return_
    else
      emit (Render [optimizedRoute coordinates] 0) ;;
      (if map_throws w [optimizedRoute coordinates] then throw else ret tt) ;;
      (* "Clear normal routes and close optimization panel" *)
      setRoutes [] ;;
      setShowOptimization false).

(** *** [getRoutes] between its [await]s

    [getRoutes] gives control back at each [await]: the component renders
    and other handlers run while a request is on its way, and the rest of
    [getRoutes] runs when the answer arrives, on the state of that moment
    but with the [userLocation] and the [selectedRouteIndex] of the render
    the call was made in. *)

(** What a call of [getRoutes] waits for, with what its closure holds. *)
Inductive Pending : Type :=
| AwaitGeocode (origin : LngLat) (selected : nat) (destination : string)
| AwaitDirections (origin : LngLat) (selected : nat) (destCoords : LngLat).

(** A part of a call of [getRoutes], from one [await] to the next: the
    state it leaves, what it did, and what it waits for, if anything. *)
Definition Part : Type := State * list Event * option Pending.

Definition ended (r : Completion unit * State * list Event) : Part :=
  (final r, trace r, None).

(** The answer of a request that was sent: [await response.json()]. *)
Definition json {S A : Type} (answer : Fetched A) : Eff S A :=
  match answer with
  | Body a => ret a
  | NetworkFailure => throw
  | ParseFailure => throw
  end.

(** From the call to the first request. *)
Definition getRoutes_start (destination : string)
  (coordinates : option LngLat) (st : State) : Part :=
  match userLocation st with
  | None => (st, [], None)
  | Some origin =>
      if negb (JS.truthy destination) then (st, [], None)
      else
        let st1 :=
          final ((setIsLoading true ;; setDestination destination) st) in
        match coordinates with
        | Some c =>
            (st1, [Fetch (Directions origin c)],
             Some (AwaitDirections origin (selectedRouteIndex st) c))
        | None =>
            (st1, [Fetch (Geocoding destination 1 [])],
             Some (AwaitGeocode origin (selectedRouteIndex st) destination))
        end
  end.

(** From the geocoding answer to the directions request, or to the end. *)
Definition getRoutes_geocoded (w : World) (origin : LngLat) (selected : nat)
  (destination : string) (st : State) : Part :=
  let stops (body : Eff State unit) : Part :=
    ended (async_ (try_catch_finally body (toast RouteError)
                     (setIsLoading false)) st) in
  match geocoding w destination 1 [] with
  | Body geocodeData =>
      match Mapbox.features geocodeData with
      | None => stops throw
      | Some [] =>
          stops (toast DestinationNotFound ;; setIsLoading false ;; return_)
      | Some (f :: _) =>
          (st, [Fetch (Directions origin (Mapbox.center f))],
           Some (AwaitDirections origin selected (Mapbox.center f)))
      end
  | _ => stops throw
  end.

(** From the directions answer to the end. *)
Definition getRoutes_routed (w : World) (origin : LngLat) (selected : nat)
  (destCoords : LngLat) : Eff State unit :=
  async_ (
    try_catch_finally
      (routeData <- json (directions w origin destCoords) ;;
       match Mapbox.routes routeData with
       | Some (r :: rs) =>
           let processedRoutes := map processRoute (r :: rs) in
           setRoutes processedRoutes ;;
           displayRoutes w selected processedRoutes ;;
           if suggestsAlternative processedRoutes
           then toast TrafficDetected
           else ret tt
       | _ => ret tt
       end)
      (toast RouteError)
      (setIsLoading false)).

(** The part of [getRoutes] that runs when the answer it waits for comes
    from [w]. *)
Definition resume (w : World) (pending : Pending) (st : State) : Part :=
  match pending with
  | AwaitGeocode origin selected destination =>
      getRoutes_geocoded w origin selected destination st
  | AwaitDirections origin selected destCoords =>
      ended (getRoutes_routed w origin selected destCoords st)
  end.

(** A call of [getRoutes] whose answers arrive before anything else
    happens: the final state and all that was done. *)
Definition uninterrupted (w : World) (destination : string)
  (coordinates : option LngLat) (st : State) : State * list Event :=
  let '(s1, t1, p1) := getRoutes_start destination coordinates st in
  match p1 with
  | None => (s1, t1)
  | Some first =>
      let '(s2, t2, p2) := resume w first s1 in
      match p2 with
      | None => (s2, t1 ++ t2)
      | Some second =>
          let '(s3, t3, _) := resume w second s2 in
          (s3, t1 ++ t2 ++ t3)
      end
  end.

(** What happens to the component, one step at a time: a handler runs, or
    the service (the world [w] of that moment) answers the [k]-th request
    that is on its way. *)
Inductive Step : Type :=
| Position (coords : LngLat)
| Search (destination : string) (coordinates : option LngLat)
| Answer (k : nat) (w : World)
| Select (w : World) (index : nat)
| Optimized (mapPresent : bool) (w : World) (path : list LngLat)
    (names : list string)
| ToggleOptimization.

Definition waitingFor (p : option Pending) : list Pending :=
  match p with
  | Some pending => [pending]
  | None => []
  end.

(** One step on the component and the calls of [getRoutes] that wait for
    an answer. *)
Definition perform (a : Step) (c : State * list Pending)
  : State * list Pending :=
  let (st, waiting) := c in
  match a with
  | Position coords => (final (handlePosition coords st), waiting)
  | Search destination coordinates =>
      match getRoutes_start destination coordinates st with
      | (st', _, p) => (st', waiting ++ waitingFor p)
      end
  | Answer k w =>
      match nth_error waiting k with
      | None => c
      | Some pending =>
          match resume w pending st with
          | (st', _, p) =>
              (st', firstn k waiting ++ waitingFor p ++ skipn (S k) waiting)
          end
      end
  | Select w index => (final (selectRoute w index st), waiting)
  | Optimized mapPresent w path names =>
      (final (handleOptimizedRoute mapPresent w path names st), waiting)
  | ToggleOptimization => (final (toggleOptimization st), waiting)
  end.

(** The component and its waiting calls after a sequence of steps. *)
Fixpoint session (steps : list Step) (c : State * list Pending)
  : State * list Pending :=
  match steps with
  | [] => c
  | a :: rest => session rest (perform a c)
  end.

End TrafficMap.

(** ** SearchInput.tsx *)

Module SearchInput.

Definition Suggestion : Type := Mapbox.Feature.

Record State : Type := {
  query : string;
  suggestions : list Suggestion;
  showSuggestions : bool;
  selectedIndex : Z
}.

Definition initial : State := {|
  query := "";
  suggestions := [];
  showSuggestions := false;
  selectedIndex := -1
|}.

Definition setQuery (v : string) : Eff State unit :=
  modify (fun s => {|
    query := v;
    suggestions := suggestions s;
    showSuggestions := showSuggestions s;
    selectedIndex := selectedIndex s |}).

Definition setSuggestions (v : list Suggestion) : Eff State unit :=
  modify (fun s => {|
    query := query s;
    suggestions := v;
    showSuggestions := showSuggestions s;
    selectedIndex := selectedIndex s |}).

Definition setShowSuggestions (v : bool) : Eff State unit :=
  modify (fun s => {|
    query := query s;
    suggestions := suggestions s;
    showSuggestions := v;
    selectedIndex := selectedIndex s |}).

(** [setSelectedIndex] called with an updater [prev => ...]; a call with a
    value [v] is the updater [fun _ => v]. *)
Definition setSelectedIndex (f : Z -> Z) : Eff State unit :=
  modify (fun s => {|
    query := query s;
    suggestions := suggestions s;
    showSuggestions := showSuggestions s;
    selectedIndex := f (selectedIndex s) |}).

(** The [types] parameter of the autocomplete request. *)
Definition autocompleteTypes : list string :=
  ["place"; "locality"; "neighborhood"; "address"; "poi"].

Section Component.

(** The props: the access token and the parent's callback, which runs on
    the parent's state [P]. *)
Variable P : Type.
Variable w : World.
Variable mapboxToken : string.
Variable onDestinationSelect : string -> option LngLat -> Eff P unit.

Definition searchSuggestions (searchQuery : string) : Eff (State * P) unit :=
  async_ (
    if negb (JS.truthy mapboxToken) || negb (JS.truthy (JS.trim searchQuery))
    then return_
    else
      try_catch
        (data <-
           fetch_json (Geocoding searchQuery 5 autocompleteTypes)
             (geocoding w searchQuery 5 autocompleteTypes) ;;
         match Mapbox.features data with
         | Some features =>
             own (setSuggestions features) ;;
             own (setShowSuggestions true) ;;
             own (setSelectedIndex (fun _ => -1)%Z)
         | None => ret tt
         end)
        (emit ConsoleError)).

(** "Debounced search": the body of the timer set by the effect on
    [query], run when 300 ms passed without another keystroke. *)
Definition debouncedSearch : Eff (State * P) unit :=
  st <- own get ;;
  if (2 <? String.length (query st))%nat
  then searchSuggestions (query st)
  else
    own (setSuggestions []) ;;
    own (setShowSuggestions false).

Definition handleInputChange (value : string) : Eff (State * P) unit :=
  own (setQuery value).

Definition selectSuggestion (suggestion : Suggestion)
  : Eff (State * P) unit :=
  own (setQuery (Mapbox.place_name suggestion)) ;;
  own (setShowSuggestions false) ;;
  own (setSuggestions []) ;;
  own (setSelectedIndex (fun _ => -1)%Z) ;;
  parent (onDestinationSelect (Mapbox.place_name suggestion)
            (Some (Mapbox.center suggestion))).

Definition handleSearch : Eff (State * P) unit :=
  st <- own get ;;
  if JS.truthy (JS.trim (query st))
  then
    own (setShowSuggestions false) ;;
    parent (onDestinationSelect (JS.trim (query st)) None)
  else ret tt.

(** [handleKeyDown], by [e.key].  [suggestions[selectedIndex]] is
    [undefined] past the end of the list, and reading its [place_name]
    throws. *)
Definition handleKeyDown (key : string) : Eff (State * P) unit :=
  function_ (
    st <- own get ;;
    if negb (showSuggestions st)
       || (List.length (suggestions st) =? 0)%nat
    then
      (if key =? "Enter" then handleSearch else ret tt) ;;
      return_
    else if key =? "ArrowDown" then
      emit PreventDefault ;;
      own (setSelectedIndex (fun prev =>
             if (prev <? Z.of_nat (List.length (suggestions st)) - 1)%Z
             then (prev + 1)%Z else prev))
    else if key =? "ArrowUp" then
      emit PreventDefault ;;
      own (setSelectedIndex (fun prev =>
             if (prev >? 0)%Z then (prev - 1)%Z else (-1)%Z))
    else if key =? "Enter" then
      emit PreventDefault ;;
      if (selectedIndex st >=? 0)%Z then
        match nth_error (suggestions st) (Z.to_nat (selectedIndex st)) with
        | Some suggestion => selectSuggestion suggestion
        | None => throw
        end
      else handleSearch
    else if key =? "Escape" then
      own (setShowSuggestions false) ;;
      own (setSelectedIndex (fun _ => -1)%Z)
    else ret tt).

(** The pointer handlers of a suggestion's button. *)
Definition handleClick (suggestion : Suggestion) : Eff (State * P) unit :=
  selectSuggestion suggestion.

Definition handleMouseEnter (index : nat) : Eff (State * P) unit :=
  own (setSelectedIndex (fun _ => Z.of_nat index)).

End Component.

Arguments searchSuggestions {P} w mapboxToken searchQuery.
Arguments debouncedSearch {P} w mapboxToken.
Arguments handleInputChange {P} value.
Arguments selectSuggestion {P} onDestinationSelect suggestion.
Arguments handleSearch {P} onDestinationSelect.
Arguments handleKeyDown {P} onDestinationSelect key.
Arguments handleClick {P} onDestinationSelect suggestion.
Arguments handleMouseEnter {P} index.

(** The dropdown is rendered when [showSuggestions && suggestions.length > 0]. *)
Definition dropdownShown (s : State) : bool :=
  showSuggestions s && (0 <? List.length (suggestions s))%nat.

(** [onFocus] of the input. *)
Definition handleFocus : Eff State unit :=
  st <- get ;;
  if (0 <? List.length (suggestions st))%nat
  then setShowSuggestions true
  else ret tt.

(** "Close suggestions when clicking outside"; [outside] says whether the
    pointer went down outside the component's element. *)
Definition handleClickOutside (outside : bool) : Eff State unit :=
  if outside then setShowSuggestions false else ret tt.

(** The icons of [getPlaceIcon]: a pin, a house, a group of houses, a
    city. *)
Inductive Icon : Type := Pin | House | Houses | City.

Definition getPlaceIcon (placeTypes : list string) : Icon :=
  if JS.includes placeTypes "poi" then Pin
  else if JS.includes placeTypes "address" then House
  else if JS.includes placeTypes "neighborhood" then Houses
  else if JS.includes placeTypes "locality" then City
  else if JS.includes placeTypes "place" then Pin
  else Pin.

(** The two lines of a suggestion's button:
    [place_name.split(',')[0]] and
    [place_name.split(',').slice(1).join(',').trim()]. *)
Definition primaryLine (place_name : string) : string :=
  hd EmptyString (JS.split "," place_name).

Definition secondaryLine (place_name : string) : string :=
  JS.trim (JS.join "," (tl (JS.split "," place_name))).

(** What the user (or the timer) does to the search box between two
    renders.  A suggestion's button exists, for the pointer, only while the
    dropdown is rendered. *)
Inductive Action : Type :=
| Typing (value : string)
| TimerFires (w : World)
| KeyDown (key : string)
| Click (index : nat)
| MouseEnter (index : nat)
| Focus
| PointerDown (outside : bool).

Section Session.

Variable P : Type.
Variable mapboxToken : string.
Variable onDestinationSelect : string -> option LngLat -> Eff P unit.

Definition perform (a : Action) : Eff (State * P) unit :=
  match a with
  | Typing value => handleInputChange value
  | TimerFires w => debouncedSearch w mapboxToken
  | KeyDown key => handleKeyDown onDestinationSelect key
  | Click index =>
      st <- own get ;;
      if dropdownShown st then
        match nth_error (suggestions st) index with
        | Some suggestion => handleClick onDestinationSelect suggestion
        | None => ret tt
        end
      else ret tt
  | MouseEnter index =>
      st <- own get ;;
      if dropdownShown st && (index <? List.length (suggestions st))%nat
      then handleMouseEnter index
      else ret tt
  | Focus => own handleFocus
  | PointerDown outside => own (handleClickOutside outside)
  end.

(** The states after a sequence of actions. *)
Fixpoint session (actions : list Action) (sp : State * P) : State * P :=
  match actions with
  | [] => sp
  | a :: rest => session rest (final (perform a sp))
  end.

End Session.

Arguments perform {P} mapboxToken onDestinationSelect a.
Arguments session {P} mapboxToken onDestinationSelect actions sp.

End SearchInput.

(** ** OptimizationPanel.tsx *)

Module OptimizationPanel.

Record Waypoint : Type := {
  id : string;
  name : string;
  coordinates : LngLat
}.

Record State : Type := {
  waypoints : list Waypoint;
  isOptimizing : bool;
  newWaypoint : string
}.

Definition setIsOptimizing (v : bool) : Eff State unit :=
  modify (fun s => {|
    waypoints := waypoints s;
    isOptimizing := v;
    newWaypoint := newWaypoint s |}).




(** [waypoints[wp.waypoint_index - 1]?.name || `Stop ${index}`] *)
Definition stopName (waypoints : list Waypoint) (wp : Mapbox.TripWaypoint)
  (index : nat) : string :=
  let i := (Mapbox.waypoint_index wp - 1)%Z in
  let fallback := ("Stop " ++ JS.toString index)%string in
  if (i <? 0)%Z then fallback
  else
    match nth_error waypoints (Z.to_nat i) with
    | Some wpt => if JS.truthy (name wpt) then name wpt else fallback
    | None => fallback
    end.

Section Component.

(** The prop [onOptimizedRoute]: the parent's handler, which runs on the
    parent's state [P]. *)
Variable P : Type.
Variable onOptimizedRoute : list LngLat -> list string -> Eff P unit.

(** [optimizeRoute], with the prop [userLocation].  The call of
    [onOptimizedRoute] is recorded with its arguments and the parent's
    handler then runs, inside the [try]: when it throws, the [catch] below
    takes over. *)
Definition optimizeRoute (w : World) (userLocation : option LngLat)
  : Eff (State * P) unit :=
  async_ (
    st <- own get ;;
    let invalid : Eff (State * P) unit :=
      toast NeedMoreWaypoints ;; return_ in
    match userLocation with
    | None => invalid
    | Some origin =>
        if (List.length (waypoints st) <? 2)%nat then invalid
        else
          own (setIsOptimizing true) ;;
          try_catch_finally
            ((* "Build coordinates string for Optimization API" *)
             let allCoordinates :=
               origin :: map coordinates (waypoints st) in
             data <-
               fetch_json (OptimizedTrips allCoordinates)
                 (optimized_trips w allCoordinates) ;;
             match Mapbox.trips data with
             | Some (optimizedTrip :: _) =>
                 match Mapbox.waypoints optimizedTrip with
                 | None => throw
                 | Some waypointOrder =>
                     (* "Get the optimized waypoint names in order" *)
                     let optimizedCoordinates :=
                       Mapbox.coordinates
                         (Mapbox.trip_geometry optimizedTrip) in
                     let optimizedWaypoints :=
                       JS.mapi
                         (fun wp index =>
                            if (index =? 0)%nat then "Your Location"
                            else stopName (waypoints st) wp index)
                         waypointOrder in
                     emit (OptimizedRoute optimizedCoordinates
                             optimizedWaypoints) ;;
                     function_
                       (parent (onOptimizedRoute optimizedCoordinates
                                  optimizedWaypoints)) ;;
                     toast (RouteOptimized
                              (Mapbox.trip_duration optimizedTrip))
                 end
             | _ => ret tt
             end)
            (toast OptimizationFailed)
            (own (setIsOptimizing false))
    end).

End Component.

Arguments optimizeRoute {P} onOptimizedRoute w userLocation.

Definition setNewWaypoint (v : string) : Eff State unit :=
  modify (fun s => {|
    waypoints := waypoints s;
    isOptimizing := isOptimizing s;
    newWaypoint := v |}).

(** The name shown in the list of destinations:
    [waypoint.name.split(',')[0]]. *)
Definition shortName (waypoint : Waypoint) : string :=
  hd EmptyString (JS.split "," (name waypoint)).

(** The notifications of [addWaypoint], by their titles. *)
Inductive Notice : Type :=
| LocationNotFound         (* "Location not found" *)
| ErrorAddingWaypoint.     (* "Error adding waypoint" *)

(** A run of [addWaypoint]: the state it leaves, the requests it sent and
    the notifications it showed. *)
Record Added : Type := {
  panel : State;
  sent : list Request;
  shown : list Notice
}.

(** [Date.now().toString()]: the decimal numeral of a number of
    milliseconds. *)
Definition timestamp (now : N) : string :=
  NilEmpty.string_of_uint (N.to_uint now).

(** [addWaypoint]; [now] is the value of [Date.now()], whose decimal
    numeral becomes the waypoint's [id]. *)
Definition addWaypoint (w : World) (now : N) (mapboxToken : string)
  (placeName : string) (st : State) : Added :=
  if negb (JS.truthy (JS.trim placeName)) || negb (JS.truthy mapboxToken)
  then {| panel := st; sent := []; shown := [] |}
  else
    (* "Geocode the place name" *)
    match geocoding w placeName 1 [] with
    | Body data =>
        match Mapbox.features data with
        | Some (feature :: _) =>
            let newWaypoint := {|
              id := timestamp now;
              name := Mapbox.place_name feature;
              coordinates := Mapbox.center feature |} in
            {| panel := {|
                 waypoints := waypoints st ++ [newWaypoint];
                 isOptimizing := isOptimizing st;
                 newWaypoint := "" |};
               sent := [Geocoding placeName 1 []];
               shown := [] |}
        | _ =>
            {| panel := st;
               sent := [Geocoding placeName 1 []];
               shown := [LocationNotFound] |}
        end
    | _ =>
        {| panel := st;
           sent := [Geocoding placeName 1 []];
           shown := [ErrorAddingWaypoint] |}
    end.

End OptimizationPanel.

(** ** ApiKeyInput.tsx and Index.tsx *)

Module ApiKeyInput.

(** [handleSubmit]: what the [mapbox_token] cell of [localStorage] holds
    afterwards ([stored] is what it held before), and the argument of the
    [onApiKeySubmit] call, if the call is made. *)
Definition handleSubmit (token : string) (stored : option string)
  : option string * option string :=
  if JS.truthy (JS.trim token)
  then (Some (JS.trim token), Some (JS.trim token))
  else (stored, None).

End ApiKeyInput.

Module Index.

(** What [Index] renders. *)
Inductive Page : Type :=
| KeyForm                          (* <ApiKeyInput ... /> *)
| Map (mapboxToken : string).      (* <TrafficMap mapboxToken=... /> *)

(** The state [mapboxToken : string | null]. *)
Definition State : Type := option string.

Definition initial : State := None.

(** "Check for stored token": the effect run once after the first
    render. *)
Definition mount (stored : option string) (st : State) : State :=
  match stored with
  | Some storedToken => if JS.truthy storedToken then Some storedToken else st
  | None => st
  end.

Definition handleApiKeySubmit (token : string) (st : State) : State :=
  Some token.

Definition render (st : State) : Page :=
  match st with
  | Some token => if JS.truthy token then Map token else KeyForm
  | None => KeyForm
  end.

(** The form is submitted with [token] typed: storage and state
    afterwards. *)
Definition submit (token : string) (stored : option string) (st : State)
  : option string * State :=
  match ApiKeyInput.handleSubmit token stored with
  | (stored', Some submitted) => (stored', handleApiKeySubmit submitted st)
  | (stored', None) => (stored', st)
  end.

End Index.

(** ** Observing a run *)

Definition isGeocodeCall (e : Event) : bool :=
  match e with
  | Fetch (Geocoding _ _ _) => true
  | _ => false
  end.

Definition isDirectionsCall (e : Event) : bool :=
  match e with
  | Fetch (Directions _ _) => true
  | _ => false
  end.

Definition isNetworkCall (e : Event) : bool :=
  match e with
  | Fetch _ => true
  | _ => false
  end.

Definition geocodeCalls (t : list Event) : nat :=
  List.length (filter isGeocodeCall t).

Definition directionsCalls (t : list Event) : nat :=
  List.length (filter isDirectionsCall t).

Definition networkCalls (t : list Event) : nat :=
  List.length (filter isNetworkCall t).

(** The requests of a run, in the order they were sent. *)
Fixpoint requests (t : list Event) : list Request :=
  match t with
  | [] => []
  | Fetch r :: t' => r :: requests t'
  | _ :: t' => requests t'
  end.

(** The notifications of a run, in the order they were shown. *)
Fixpoint toasts (t : list Event) : list Toast :=
  match t with
  | [] => []
  | Notify n :: t' => n :: toasts t'
  | _ :: t' => toasts t'
  end.

(** The search box after the key [key] went down. *)
Definition afterKey {P : Type}
  (onDestinationSelect : string -> option LngLat -> Eff P unit)
  (key : string) (s : SearchInput.State) (p : P) : SearchInput.State :=
  fst (final (SearchInput.handleKeyDown onDestinationSelect key (s, p))).

(** The selected index is a valid index into the candidate list. *)
Definition validSelection (st : TrafficMap.State) : Prop :=
  (TrafficMap.selectedRouteIndex st < List.length (TrafficMap.routes st))%nat.

(** The traffic flag and the severity of a stored route are the ones
    [getRoutes] derives from the congestion tags stored with it. *)
Definition derived (r : RouteData) : Prop :=
  hasTraffic r = TrafficMap.hasTrafficOf (congestion r) /\
  trafficLevel r = TrafficMap.trafficLevelOf (congestion r).

(** The cursor of the search box is -1 or an index of the suggestion
    list (any value from -1 on while the list is empty). *)
Definition cursorInRange (s : SearchInput.State) : Prop :=
  (-1 <= SearchInput.selectedIndex s)%Z /\
  (SearchInput.suggestions s <> [] ->
   (SearchInput.selectedIndex s
    < Z.of_nat (List.length (SearchInput.suggestions s)))%Z).

(** The names [optimizeRoute] gives to the stops of an answer. *)
Definition stopNames (st : OptimizationPanel.State)
  (order : list Mapbox.TripWaypoint) : list string :=
  JS.mapi
    (fun wp index =>
       if (index =? 0)%nat then "Your Location"
       else OptimizationPanel.stopName (OptimizationPanel.waypoints st)
              wp index)
    order.


(** The map component and its waiting fetches, at any moment: every
    stored route is derived from its tags, stored routes and waiting
    fetches exist only with a user position, and the loading flag is on
    only while a fetch waits for an answer. *)
Definition settled (c : TrafficMap.State * list TrafficMap.Pending) : Prop :=
  Forall derived (TrafficMap.routes (fst c)) /\
  (TrafficMap.routes (fst c) <> [] \/ snd c <> [] ->
   TrafficMap.userLocation (fst c) <> None) /\
  (TrafficMap.isLoading (fst c) = true -> snd c <> []).

(** The coordinates a route fetch asks directions to: the ones it is given
    or, for a typed destination, the centre of the first feature of the
    geocoding answer. *)
Definition destinationOf (w : World) (destination : string)
  (coordinates : option LngLat) : option LngLat :=
  match coordinates with
  | Some c => Some c
  | None =>
      match geocoding w destination 1 [] with
      | Body data =>
          match Mapbox.features data with
          | Some (f :: _) => Some (Mapbox.center f)
          | _ => None
          end
      | _ => None
      end
  end.

(** What a route fetch sends before its directions request: nothing when
    it is given coordinates, the geocode request of the typed destination
    otherwise. *)
Definition lookups (destination : string) (coordinates : option LngLat)
  : list Event :=
  match coordinates with
  | Some _ => []
  | None => [Fetch (Geocoding destination 1 [])]
  end.

(** A tag that counts as traffic. *)
Definition congested (tag : string) : Prop :=
  tag = "moderate" \/ tag = "heavy" \/ tag = "severe".

(** ** Sample data for the concrete runs *)

Module Sample.

Definition here : LngLat := ((-74)%float, 40.75%float).
Definition there : LngLat := ((-73.5)%float, 40.5%float).
Definition elsewhere : LngLat := ((-73.25)%float, 40.25%float).

Definition line (a b : LngLat) : Mapbox.Geometry :=
  {| Mapbox.coordinates := [a; b] |}.

(** A route to [dest] whose only leg carries the congestion list [tags]. *)
Definition route (dest : LngLat) (tags : option (list string))
  : Mapbox.Route :=
  {| Mapbox.geometry := line here dest;
     Mapbox.duration := 600%float;
     Mapbox.distance := 5000%float;
     Mapbox.legs :=
       [ {| Mapbox.annotation :=
              Some {| Mapbox.congestion := tags |} |} ] |}.

Definition place (ident full : string) (at_ : LngLat) : Mapbox.Feature :=
  {| Mapbox.id := ident;
     Mapbox.place_name := full;
     Mapbox.center := at_;
     Mapbox.place_type := ["poi"] |}.

Definition library : Mapbox.Feature :=
  place "poi.1" "Library, Springfield" there.

Definition libraryAve : Mapbox.Feature :=
  place "address.2" "Library Ave, Shelbyville" elsewhere.

(** A service that is out of reach. *)
Definition offline : World :=
  {| geocoding := fun _ _ _ => NetworkFailure;
     directions := fun _ _ => NetworkFailure;
     optimized_trips := fun _ => NetworkFailure;
     map_throws := fun _ => false |}.

(** A service that answers every directions request with the routes [rs]
    and every geocoding request with the features [fs]. *)
Definition serving (fs : list Mapbox.Feature) (rs : list Mapbox.Route)
  : World :=
  {| geocoding := fun _ _ _ => Body {| Mapbox.features := Some fs |};
     directions := fun _ _ => Body {| Mapbox.routes := Some rs |};
     optimized_trips := fun _ => NetworkFailure;
     map_throws := fun _ => false |}.

Definition threeRoutes : World :=
  serving [library]
    [route there (Some ["heavy"; "low"]);
     route there (Some ["low"]);
     route there (Some ["moderate"])].

Definition oneRoute : World :=
  serving [libraryAve] [route elsewhere (Some ["low"])].

(** A service that knows one place: "Library" is at [there], directions
    to [there] are the three routes of [threeRoutes], and there is no route
    to any other point. *)
Definition town : World :=
  {| geocoding :=
       fun q _ _ =>
         Body {| Mapbox.features :=
                   Some (if (q =? "Library")%string then [library] else []) |};
     directions :=
       fun _ d =>
         Body {| Mapbox.routes :=
                   Some (if (PrimFloat.eqb (fst d) (fst there)
                             && PrimFloat.eqb (snd d) (snd there))%bool
                         then [route there (Some ["heavy"; "low"]);
                               route there (Some ["low"]);
                               route there (Some ["moderate"])]
                         else []) |};
     optimized_trips := fun _ => NetworkFailure;
     map_throws := fun _ => false |}.

(** Six features for one request, whatever its [limit]. *)
Definition sixFeatures : World :=
  serving [library; libraryAve; library; libraryAve; library; libraryAve] [].

(** The map component once the browser gave the user's position. *)
Definition located : TrafficMap.State :=
  {| TrafficMap.userLocation := Some here;
     TrafficMap.routes := [];
     TrafficMap.selectedRouteIndex := 0;
     TrafficMap.destination := "";
     TrafficMap.isLoading := false;
     TrafficMap.showOptimization := false |}.


(** The search box with [text] typed, the dropdown open on two suggestions
    and the cursor at [cursor]. *)
Definition browsing (text : string) (cursor : Z) : SearchInput.State :=
  {| SearchInput.query := text;
     SearchInput.suggestions := [library; libraryAve];
     SearchInput.showSuggestions := true;
     SearchInput.selectedIndex := cursor |}.

Definition stop (ident full : string) (at_ : LngLat)
  : OptimizationPanel.Waypoint :=
  {| OptimizationPanel.id := ident;
     OptimizationPanel.name := full;
     OptimizationPanel.coordinates := at_ |}.

(** The optimization panel with a single stop. *)
Definition oneStop : OptimizationPanel.State :=
  {| OptimizationPanel.waypoints := [stop "1700000000000" "Library" there];
     OptimizationPanel.isOptimizing := false;
     OptimizationPanel.newWaypoint := "" |}.

(** The optimization panel with two stops, the second one without a
    name. *)
Definition twoStops : OptimizationPanel.State :=
  {| OptimizationPanel.waypoints :=
       [stop "1700000000000" "Library, Springfield" there;
        stop "1700000000001" "" elsewhere];
     OptimizationPanel.isOptimizing := false;
     OptimizationPanel.newWaypoint := "" |}.

(** A trip whose waypoints carry the indices [order]. *)
Definition tripOf (order : list Z) : Mapbox.Trip :=
  {| Mapbox.trip_geometry := line here elsewhere;
     Mapbox.trip_duration := 1200%float;
     Mapbox.waypoints :=
       Some (map (fun k => {| Mapbox.waypoint_index := k |}) order) |}.

(** A service that answers every optimization request with one trip. *)
Definition optimizing (order : list Z) : World :=
  {| geocoding := fun _ _ _ => NetworkFailure;
     directions := fun _ _ => NetworkFailure;
     optimized_trips :=
       fun _ => Body {| Mapbox.trips := Some [tripOf order] |};
     map_throws := fun _ => false |}.

(** The world [w] with a map widget that throws whatever it draws. *)
Definition brokenMap (w : World) : World :=
  {| geocoding := geocoding w;
     directions := directions w;
     optimized_trips := optimized_trips w;
     map_throws := fun _ => true |}.

End Sample.

(** ** Proof steps for runs *)

(** Case analysis on the innermost scrutinee of the goal. *)
Ltac break_match :=
  match goal with
  | |- context [match ?x with _ => _ end] =>
      lazymatch x with
      | context [match _ with _ => _ end] => fail
      | _ => destruct x eqn:?
      end
  end.

(** Unfolding of the effect monad and of the handlers built on it. *)
Ltac run :=
  cbv [TrafficMap.getRoutes TrafficMap.selectRoute TrafficMap.displayRoutes
       TrafficMap.setIsLoading TrafficMap.setDestination TrafficMap.setRoutes
       TrafficMap.setSelectedRouteIndex
       SearchInput.searchSuggestions SearchInput.debouncedSearch
       SearchInput.selectSuggestion SearchInput.handleSearch
       SearchInput.handleKeyDown SearchInput.handleClick
       SearchInput.setQuery SearchInput.setSuggestions
       SearchInput.setShowSuggestions SearchInput.setSelectedIndex
       OptimizationPanel.optimizeRoute OptimizationPanel.setIsOptimizing
       async_ function_ bind get modify emit ret return_ throw toast
       fetch_json try_catch_finally try_catch own parent
       completion final trace fst snd app].

Ltac run_cases := run; repeat (break_match; cbv beta iota zeta).

(** One key in the open dropdown; [Hopen] says that it is open. *)
Ltac key_step Hopen :=
  unfold afterKey, SearchInput.handleKeyDown;
  cbv [function_ bind own get fst snd emit final trace];
  rewrite Hopen; reflexivity.

(** [run] after the unfolding of the sessions and of the handlers they are
    made of. *)
Ltac run_session :=
  cbv [TrafficMap.handlePosition
       TrafficMap.toggleOptimization TrafficMap.handleOptimizedRoute
       TrafficMap.setShowOptimization TrafficMap.setUserLocation
       SearchInput.perform SearchInput.handleFocus
       SearchInput.handleClickOutside SearchInput.handleInputChange
       SearchInput.handleMouseEnter];
  run.

(** Comparisons met in the handlers, as propositions. *)
Ltac cursor_arith :=
  repeat match goal with
         | H : (_ <? _)%Z = true |- _ => apply Z.ltb_lt in H
         | H : (_ <? _)%Z = false |- _ => apply Z.ltb_ge in H
         | H : (_ >? _)%Z = _ |- _ => rewrite Z.gtb_ltb in H
         | H : (_ >=? _)%Z = _ |- _ => rewrite Z.geb_leb in H
         | H : (_ <=? _)%Z = true |- _ => apply Z.leb_le in H
         | H : (_ <=? _)%Z = false |- _ => apply Z.leb_gt in H
         | H : (_ <? _)%nat = true |- _ => apply Nat.ltb_lt in H
         | H : (_ <? _)%nat = false |- _ => apply Nat.ltb_ge in H
         | H : (_ =? _)%nat = false |- _ => apply Nat.eqb_neq in H
         | H : _ && _ = true |- _ =>
             apply andb_true_iff in H; destruct H
         | H : _ || _ = false |- _ =>
             apply orb_false_iff in H; destruct H
         end.

(** [run] without the unfolding of [++], for traces with a part that is
    not known. *)
Ltac run_open :=
  cbv [TrafficMap.getRoutes TrafficMap.selectRoute TrafficMap.displayRoutes
       TrafficMap.setIsLoading TrafficMap.setDestination TrafficMap.setRoutes
       TrafficMap.setSelectedRouteIndex
       TrafficMap.handleOptimizedRoute TrafficMap.setShowOptimization
       OptimizationPanel.optimizeRoute OptimizationPanel.setIsOptimizing
       async_ function_ bind get modify emit ret return_ throw toast
       fetch_json try_catch_finally try_catch own parent
       completion final trace fst snd];
  cbn [app].

(** Membership in a list that is written out. *)
Ltac in_cases H :=
  simpl in H;
  repeat match type of H with
         | _ \/ _ => destruct H as [H|H]
         | False => contradiction
         end.

(** ** The array helpers *)

Lemma includes_In (l : list string) (x : string) :
  JS.includes l x = true <-> In x l.
Proof.
  induction l as [|y l IH]; simpl.
  - split; [discriminate | contradiction].
  - destruct (String.eqb_spec y x) as [->|Hne].
    + split; auto.
    + rewrite IH. split; [auto | intros [H|H]; [contradiction | exact H]].
Qed.

Lemma includes_not_In (l : list string) (x : string) :
  JS.includes l x = false <-> ~ In x l.
Proof.
  rewrite <- includes_In. destruct (JS.includes l x); split; congruence.
Qed.

Lemma some_exists {A : Type} (l : list A) (p : A -> bool) :
  JS.some l p = true <-> exists y, In y l /\ p y = true.
Proof.
  induction l as [|y l IH]; simpl.
  - split; [discriminate | intros [z [[] _]]].
  - destruct (p y) eqn:Hy.
    + split; [exists y; auto | reflexivity].
    + rewrite IH. split.
      * intros [z [Hz Hp]]. exists z. auto.
      * intros [z [[->|Hz] Hp]]; [congruence | exists z; auto].
Qed.

Lemma find_exists {A : Type} (l : list A) (p : A -> bool) :
  (exists y, JS.find l p = Some y) <-> exists y, In y l /\ p y = true.
Proof.
  induction l as [|y l IH]; simpl.
  - split; [intros [z Hz]; discriminate | intros [z [[] _]]].
  - destruct (p y) eqn:Hy.
    + split; intros _; exists y; auto.
    + rewrite IH. split.
      * intros [z [Hz Hp]]. exists z. auto.
      * intros [z [[->|Hz] Hp]]; [congruence | exists z; auto].
Qed.

Lemma congested_includes (tag : string) :
  JS.includes ["moderate"; "heavy"; "severe"] tag = true <-> congested tag.
Proof.
  rewrite includes_In. unfold congested. simpl.
  intuition congruence.
Qed.

(** ** Traffic classification *)

Lemma hasTrafficOf_spec (tags : list string) :
  TrafficMap.hasTrafficOf tags = true <->
  exists tag, In tag tags /\ congested tag.
Proof.
  unfold TrafficMap.hasTrafficOf. rewrite some_exists.
  split; intros [tag [Hin Hc]]; exists tag; split; auto;
    now apply congested_includes.
Qed.

Lemma trafficLevelOf_cases (tags : list string) :
  (In "severe" tags /\ TrafficMap.trafficLevelOf tags = heavy) \/
  (~ In "severe" tags /\ In "heavy" tags /\
     TrafficMap.trafficLevelOf tags = moderate) \/
  (~ In "severe" tags /\ ~ In "heavy" tags /\ In "moderate" tags /\
     TrafficMap.trafficLevelOf tags = light) \/
  (~ In "severe" tags /\ ~ In "heavy" tags /\ ~ In "moderate" tags /\
     TrafficMap.trafficLevelOf tags = free).
Proof.
  unfold TrafficMap.trafficLevelOf.
  destruct (JS.includes tags "severe") eqn:Hs.
  { left. split; [now apply includes_In | reflexivity]. }
  apply includes_not_In in Hs.
  destruct (JS.includes tags "heavy") eqn:Hh.
  { right; left. repeat split; [exact Hs | now apply includes_In]. }
  apply includes_not_In in Hh.
  destruct (JS.includes tags "moderate") eqn:Hm.
  { right; right; left. repeat split; auto. now apply includes_In. }
  apply includes_not_In in Hm.
  right; right; right. repeat split; auto.
Qed.

(** No traffic and the level [free] are the same thing for a list of tags. *)
Lemma hasTrafficOf_false_iff_free (tags : list string) :
  TrafficMap.hasTrafficOf tags = false <->
  TrafficMap.trafficLevelOf tags = free.
Proof.
  split.
  - intros Hno.
    assert (Hnone : forall tag, In tag tags -> ~ congested tag).
    { intros tag Hin Hc.
      assert (TrafficMap.hasTrafficOf tags = true)
        by (apply hasTrafficOf_spec; exists tag; auto).
      congruence. }
    destruct (trafficLevelOf_cases tags)
      as [[H _]|[[_ [H _]]|[[_ [_ [H _]]]|[_ [_ [_ H]]]]]]; auto;
      exfalso; apply (Hnone _ H); unfold congested; auto.
  - intros Hfree.
    destruct (TrafficMap.hasTrafficOf tags) eqn:Ht; [|reflexivity].
    apply hasTrafficOf_spec in Ht. destruct Ht as [tag [Hin Hc]].
    destruct (trafficLevelOf_cases tags)
      as [[_ H]|[[_ [_ H]]|[[_ [_ [_ H]]]|[Hs [Hh [Hm _]]]]]];
      try congruence.
    destruct Hc as [->|[->| ->]]; contradiction.
Qed.

(** C1. The severity of a route is the worst-case priority of its first
    leg's congestion tags: [heavy] exactly when some tag is "severe";
    [moderate] exactly when none is "severe" and some is "heavy"; [light]
    exactly when none is "severe" or "heavy" and some is "moderate"; [free]
    exactly when none of the three occurs.  The severity [getRoutes] stores
    in a route is this function of the tags it stores. *)
Theorem trafficLevel_worst_case_priority :
  (forall tags : list string,
     (TrafficMap.trafficLevelOf tags = heavy <-> In "severe" tags) /\
     (TrafficMap.trafficLevelOf tags = moderate <->
        ~ In "severe" tags /\ In "heavy" tags) /\
     (TrafficMap.trafficLevelOf tags = light <->
        ~ In "severe" tags /\ ~ In "heavy" tags /\ In "moderate" tags) /\
     (TrafficMap.trafficLevelOf tags = free <->
        ~ In "severe" tags /\ ~ In "heavy" tags /\ ~ In "moderate" tags)) /\
  (forall route : Mapbox.Route,
     trafficLevel (TrafficMap.processRoute route) =
     TrafficMap.trafficLevelOf (congestion (TrafficMap.processRoute route))).
Proof.
  split; [|reflexivity].
  intros tags.
  destruct (trafficLevelOf_cases tags)
    as [[Hs E]|[[Hs [Hh E]]|[[Hs [Hh [Hm E]]]|[Hs [Hh [Hm E]]]]]];
    rewrite E; repeat split; intros; try discriminate; try tauto.
Qed.

(** The spec's sample lists. *)
Example severe_dominates :
  TrafficMap.trafficLevelOf ["low"; "severe"; "moderate"; "heavy"] = heavy.
Proof. reflexivity. Qed.

Example only_moderate :
  TrafficMap.trafficLevelOf ["moderate"] = light /\
  TrafficMap.hasTrafficOf ["moderate"] = true.
Proof. split; reflexivity. Qed.

(** C2. A processed route has traffic exactly when one of its first leg's
    congestion tags is "moderate", "heavy" or "severe".  Its tags are the
    first leg's congestion list, and the empty list when the route has no
    leg, the leg no annotation or the annotation no congestion list.  With
    no tag, the route has no traffic and its severity is [free]. *)
Theorem hasTraffic_iff_congested_tag (route : Mapbox.Route) :
  let r := TrafficMap.processRoute route in
  (hasTraffic r = true <-> exists tag, In tag (congestion r) /\ congested tag)
  /\ (Mapbox.legs route = [] -> congestion r = [])
  /\ (forall leg rest,
        Mapbox.legs route = leg :: rest ->
        Mapbox.annotation leg = None -> congestion r = [])
  /\ (forall leg rest a,
        Mapbox.legs route = leg :: rest ->
        Mapbox.annotation leg = Some a ->
        Mapbox.congestion a = None -> congestion r = [])
  /\ (forall leg rest a tags,
        Mapbox.legs route = leg :: rest ->
        Mapbox.annotation leg = Some a ->
        Mapbox.congestion a = Some tags -> congestion r = tags)
  /\ (congestion r = [] -> hasTraffic r = false /\ trafficLevel r = free).
Proof.
  cbn zeta. unfold TrafficMap.processRoute, TrafficMap.firstLegCongestion.
  cbn [hasTraffic congestion trafficLevel].
  split; [apply hasTrafficOf_spec|].
  split; [intros ->; reflexivity|].
  split; [intros leg rest -> E; cbn; now rewrite E|].
  split; [intros leg rest a -> E1 E2; cbn; now rewrite E1, E2|].
  split; [intros leg rest a tags -> E1 E2; cbn; now rewrite E1, E2|].
  intros ->. split; reflexivity.
Qed.

(** A route whose first leg has a "moderate" segment has traffic. *)
Lemma hasTraffic_witness :
  hasTraffic (TrafficMap.processRoute
                (Sample.route Sample.there (Some ["low"; "moderate"])))
  = true.
Proof.
  apply (proj1 (hasTraffic_iff_congested_tag
                  (Sample.route Sample.there (Some ["low"; "moderate"])))).
  exists "moderate". split; [cbn; auto | left; reflexivity].
Defined.

(** ** The alternative-route advisory *)

Lemma processed_no_traffic_iff_free (route : Mapbox.Route) :
  hasTraffic (TrafficMap.processRoute route) = false <->
  trafficLevel (TrafficMap.processRoute route) = free.
Proof. apply hasTrafficOf_false_iff_free. Qed.

Lemma betterRoute_spec (rs : list Mapbox.Route) :
  (exists p, TrafficMap.betterRoute (map TrafficMap.processRoute rs) = Some p)
  <-> exists p, In p (map TrafficMap.processRoute rs) /\ trafficLevel p = free.
Proof.
  unfold TrafficMap.betterRoute. rewrite find_exists.
  split; intros [p [Hin Hp]]; exists p; split; auto;
    apply in_map_iff in Hin; destruct Hin as [r [<- _]].
  - apply orb_true_iff in Hp. destruct Hp as [Hp|Hp].
    + apply processed_no_traffic_iff_free. now apply negb_true_iff.
    + destruct (trafficLevel (TrafficMap.processRoute r));
        [reflexivity | discriminate..].
  - rewrite Hp. apply orb_true_r.
Qed.

Lemma suggestsAlternative_spec (rs : list Mapbox.Route) :
  TrafficMap.suggestsAlternative (map TrafficMap.processRoute rs) = true <->
  (exists p0 rest,
     map TrafficMap.processRoute rs = p0 :: rest /\ hasTraffic p0 = true) /\
  (exists p, In p (map TrafficMap.processRoute rs) /\ trafficLevel p = free).
Proof.
  destruct rs as [|r0 rest].
  { simpl. split; [discriminate | intros [[p0 [l [H _]]] _]; discriminate]. }
  pose proof (betterRoute_spec (r0 :: rest)) as Hb.
  change (map TrafficMap.processRoute (r0 :: rest))
    with (TrafficMap.processRoute r0 :: map TrafficMap.processRoute rest) in *.
  cbv beta iota delta [TrafficMap.suggestsAlternative].
  destruct (hasTraffic (TrafficMap.processRoute r0)) eqn:H0; cbn [andb].
  - destruct rest as [|r1 rest]; cbn [List.length Nat.ltb Nat.leb map].
    + split; [discriminate|].
      intros [_ [p [[<-|[]] Hp]]].
      apply processed_no_traffic_iff_free in Hp. congruence.
    + cbn [map] in Hb.
      destruct (TrafficMap.betterRoute _) as [p|].
      * split; [intros _|reflexivity].
        split; [eauto | apply Hb; eauto].
      * split; [discriminate|].
        intros [_ Hex]. apply Hb in Hex. destruct Hex; discriminate.
  - split; [discriminate|].
    intros [[p0 [l [E Ht]]] _]. injection E as <- _. congruence.
Qed.

Lemma getRoutes_keeps_selectedRouteIndex w dest coords st :
  TrafficMap.selectedRouteIndex (final (TrafficMap.getRoutes w dest coords st))
  = TrafficMap.selectedRouteIndex st.
Proof. run_cases; reflexivity. Qed.

Lemma getRoutes_without_origin (w : World) (dest : string)
  (coords : option LngLat) (st : TrafficMap.State) :
  TrafficMap.userLocation st = None ->
  TrafficMap.getRoutes w dest coords st = (Normal tt, st, []).
Proof. intros Ho. run. rewrite Ho. reflexivity. Qed.

Lemma requests_app (t1 t2 : list Event) :
  requests (t1 ++ t2) = requests t1 ++ requests t2.
Proof.
  induction t1 as [|e t1 IH]; [reflexivity|].
  destruct e; cbn [app requests]; rewrite ?IH; reflexivity.
Qed.

Lemma toasts_app (t1 t2 : list Event) :
  toasts (t1 ++ t2) = toasts t1 ++ toasts t2.
Proof.
  induction t1 as [|e t1 IH]; [reflexivity|].
  destruct e; cbn [app toasts]; rewrite ?IH; reflexivity.
Qed.

(** The run of a fetch that gets a directions answer with routes: the
    requests, the drawing of the processed routes with the selected index
    of the calling render, and one notification at most. *)
Lemma getRoutes_answered (w : World) (dest : string)
  (coords : option LngLat) (st : TrafficMap.State) (origin destCoords : LngLat)
  (data : Mapbox.DirectionsData) (r0 : Mapbox.Route)
  (rest : list Mapbox.Route) :
  TrafficMap.userLocation st = Some origin ->
  JS.truthy dest = true ->
  destinationOf w dest coords = Some destCoords ->
  directions w origin destCoords = Body data ->
  Mapbox.routes data = Some (r0 :: rest) ->
  let ps := map TrafficMap.processRoute (r0 :: rest) in
  let r := TrafficMap.getRoutes w dest coords st in
  trace r
  = lookups dest coords
    ++ Fetch (Directions origin destCoords)
       :: Render ps (TrafficMap.selectedRouteIndex st)
       :: (if map_throws w ps then [Notify RouteError]
           else if TrafficMap.suggestsAlternative ps
                then [Notify TrafficDetected]
                else []) /\
  TrafficMap.routes (final r) = ps.
Proof.
  intros Ho Ht Hdest Hd Hr. cbv zeta.
  unfold destinationOf in Hdest. destruct coords as [c|].
  - injection Hdest as ->. unfold lookups.
    run. rewrite Ho, Ht. cbv beta iota zeta delta [negb].
    rewrite Hd. cbv beta iota zeta. rewrite Hr. cbv beta iota zeta.
    destruct (map_throws w _); cbv beta iota zeta.
    + split; reflexivity.
    + destruct (TrafficMap.suggestsAlternative _); split; reflexivity.
  - destruct (geocoding w dest 1 []) as [| |g] eqn:Hg; try discriminate.
    destruct (Mapbox.features g) as [[|f fs]|] eqn:Hf; try discriminate.
    injection Hdest as <-. unfold lookups.
    run. rewrite Ho, Ht. cbv beta iota zeta delta [negb].
    rewrite Hg. cbv beta iota zeta. rewrite Hf. cbv beta iota zeta.
    rewrite Hd. cbv beta iota zeta. rewrite Hr. cbv beta iota zeta.
    destruct (map_throws w _); cbv beta iota zeta.
    + split; reflexivity.
    + destruct (TrafficMap.suggestsAlternative _); split; reflexivity.
Qed.

(** The advisory is shown only by a fetch that got a directions answer
    with routes, drew them without an error, and found the condition to
    hold. *)
Lemma getRoutes_advisory_only_if (w : World) (dest : string)
  (coords : option LngLat) (st : TrafficMap.State) :
  In (Notify TrafficDetected) (trace (TrafficMap.getRoutes w dest coords st))
  ->
  exists origin destCoords data r0 rest,
    TrafficMap.userLocation st = Some origin /\
    JS.truthy dest = true /\
    destinationOf w dest coords = Some destCoords /\
    directions w origin destCoords = Body data /\
    Mapbox.routes data = Some (r0 :: rest) /\
    map_throws w (map TrafficMap.processRoute (r0 :: rest)) = false /\
    TrafficMap.suggestsAlternative
      (map TrafficMap.processRoute (r0 :: rest)) = true.
Proof.
  unfold destinationOf. intros H.
  destruct (TrafficMap.userLocation st) as [origin|] eqn:Ho;
    [|rewrite getRoutes_without_origin in H by exact Ho; destruct H].
  destruct (JS.truthy dest) eqn:Ht.
  2:{ revert H. run. rewrite Ho, Ht. cbn. tauto. }
  exists origin.
  revert H. run. rewrite Ho, Ht. cbv beta iota zeta delta [negb].
  destruct coords as [c|]; cbv beta iota zeta.
  - destruct (directions w origin c) as [| |data] eqn:Hd;
      cbv beta iota zeta; try (intros H; in_cases H; discriminate).
    destruct (Mapbox.routes data) as [[|r0 rest]|] eqn:Hr;
      cbv beta iota zeta; try (intros H; in_cases H; discriminate).
    destruct (map_throws w _) eqn:Hm; cbv beta iota zeta;
      try (intros H; in_cases H; discriminate).
    destruct (TrafficMap.suggestsAlternative _) eqn:Hs; cbv beta iota zeta;
      try (intros H; in_cases H; discriminate).
    intros _. exists c, data, r0, rest. repeat split; assumption.
  - destruct (geocoding w dest 1 []) as [| |g] eqn:Hg;
      cbv beta iota zeta; try (intros H; in_cases H; discriminate).
    destruct (Mapbox.features g) as [[|f fs]|] eqn:Hf;
      cbv beta iota zeta; try (intros H; in_cases H; discriminate).
    destruct (directions w origin (Mapbox.center f)) as [| |data] eqn:Hd;
      cbv beta iota zeta; try (intros H; in_cases H; discriminate).
    destruct (Mapbox.routes data) as [[|r0 rest]|] eqn:Hr;
      cbv beta iota zeta; try (intros H; in_cases H; discriminate).
    destruct (map_throws w _) eqn:Hm; cbv beta iota zeta;
      try (intros H; in_cases H; discriminate).
    destruct (TrafficMap.suggestsAlternative _) eqn:Hs; cbv beta iota zeta;
      try (intros H; in_cases H; discriminate).
    intros _. exists (Mapbox.center f), data, r0, rest.
    repeat split; assumption.
Qed.

Lemma In_toasts (n : Toast) (t : list Event) :
  In (Notify n) t <-> In n (toasts t).
Proof.
  induction t as [|e t IH]; [reflexivity|].
  destruct e; cbn [toasts In]; rewrite <- ?IH;
    split; intros H; try (right; exact H);
    try (destruct H as [H|H]; [discriminate | exact H]).
  - destruct H as [H|H]; [left; congruence | right; exact H].
  - destruct H as [H|H]; [left; congruence | right; exact H].
Qed.

(** The notifications and the requests of a fetch that gets routes. *)
Lemma getRoutes_answered_toasts (w : World) (dest : string)
  (coords : option LngLat) (st : TrafficMap.State) (origin destCoords : LngLat)
  (data : Mapbox.DirectionsData) (r0 : Mapbox.Route)
  (rest : list Mapbox.Route) :
  TrafficMap.userLocation st = Some origin ->
  JS.truthy dest = true ->
  destinationOf w dest coords = Some destCoords ->
  directions w origin destCoords = Body data ->
  Mapbox.routes data = Some (r0 :: rest) ->
  let ps := map TrafficMap.processRoute (r0 :: rest) in
  let r := TrafficMap.getRoutes w dest coords st in
  toasts (trace r)
  = (if map_throws w ps then [RouteError]
     else if TrafficMap.suggestsAlternative ps then [TrafficDetected]
     else []) /\
  requests (trace r)
  = requests (lookups dest coords) ++ [Directions origin destCoords].
Proof.
  intros Ho Ht Hdest Hd Hr ps r.
  destruct (getRoutes_answered w dest coords st origin destCoords data r0
              rest Ho Ht Hdest Hd Hr) as [Htrace _].
  fold ps r in Htrace. rewrite Htrace, toasts_app, requests_app.
  split.
  - destruct coords; cbn [lookups toasts app];
      destruct (map_throws w ps); try reflexivity;
      destruct (TrafficMap.suggestsAlternative ps); reflexivity.
  - f_equal. cbn [requests].
    destruct (map_throws w ps); try reflexivity;
      destruct (TrafficMap.suggestsAlternative ps); reflexivity.
Qed.

(** C3, as stated, fails: the directions answer carries three routes, the
    first with traffic and the second rated [free], and they are stored;
    but the map widget throws while it draws them, and the fetch shows
    "Route Error" and no advisory. *)
Lemma advisory_is_lost_when_the_map_throws :
  let r := TrafficMap.getRoutes (Sample.brokenMap Sample.threeRoutes)
             "Library" (Some Sample.there) Sample.located in
  let ps := TrafficMap.routes (final r) in
  map trafficLevel ps = [moderate; free; light] /\
  (exists p0 rest, ps = p0 :: rest /\ hasTraffic p0 = true) /\
  (exists p, In p ps /\ trafficLevel p = free) /\
  toasts (trace r) = [RouteError] /\
  ~ In (Notify TrafficDetected) (trace r).
Proof.
  cbv zeta. split; [reflexivity|]. split; [|split; [|split]].
  - eexists. eexists. split; reflexivity.
  - eexists. split; [right; left; reflexivity | reflexivity].
  - reflexivity.
  - rewrite In_toasts. cbn. intros [H|[]]. discriminate.
Qed.

(** C3, amended.  For the processed routes of a directions answer that the
    map draws without throwing, the "Traffic Detected!" advisory is emitted
    exactly when the route at index 0 has traffic and some route of the
    list is rated [free] (which, for these routes, is the same as having no
    traffic); when the map widget throws while it draws them, "Route Error"
    is emitted and the advisory is not.  In particular a drawn list that
    starts with a [moderate] route followed by a [free] one triggers the
    advisory, and a drawn list whose routes are all [heavy] does not.  The
    routes are those of the answer to the directions request from the user
    position to the destination (the coordinates given, or the first
    feature found for a typed destination); no other fetch emits the
    advisory, and no fetch changes the selected route index. *)
Theorem alternative_advisory_iff :
  (forall rs : list Mapbox.Route,
     let ps := map TrafficMap.processRoute rs in
     (TrafficMap.suggestsAlternative ps = true <->
        (exists p0 rest, ps = p0 :: rest /\ hasTraffic p0 = true) /\
        (exists p, In p ps /\ trafficLevel p = free)) /\
     ((exists p, In p ps /\ trafficLevel p = free) <->
        (exists p, In p ps /\ hasTraffic p = false))) /\
  (forall (r0 r1 : Mapbox.Route) (rest : list Mapbox.Route),
     trafficLevel (TrafficMap.processRoute r0) = moderate ->
     trafficLevel (TrafficMap.processRoute r1) = free ->
     TrafficMap.suggestsAlternative
       (map TrafficMap.processRoute (r0 :: r1 :: rest)) = true) /\
  (forall rs : list Mapbox.Route,
     (forall r, In r rs ->
                trafficLevel (TrafficMap.processRoute r) = heavy) ->
     TrafficMap.suggestsAlternative (map TrafficMap.processRoute rs)
     = false) /\
  (forall (w : World) (dest : string) (coords : option LngLat)
          (st : TrafficMap.State) (origin destCoords : LngLat)
          (data : Mapbox.DirectionsData) (r0 : Mapbox.Route)
          (rest : list Mapbox.Route),
     TrafficMap.userLocation st = Some origin ->
     JS.truthy dest = true ->
     destinationOf w dest coords = Some destCoords ->
     directions w origin destCoords = Body data ->
     Mapbox.routes data = Some (r0 :: rest) ->
     let ps := map TrafficMap.processRoute (r0 :: rest) in
     let r := TrafficMap.getRoutes w dest coords st in
     let advised :=
       hasTraffic (TrafficMap.processRoute r0) = true /\
       (exists p, In p ps /\ trafficLevel p = free) in
     TrafficMap.routes (final r) = ps /\
     In (Render ps (TrafficMap.selectedRouteIndex st)) (trace r) /\
     (map_throws w ps = false ->
      (In (Notify TrafficDetected) (trace r) <-> advised) /\
      (advised -> toasts (trace r) = [TrafficDetected]) /\
      (~ advised -> toasts (trace r) = []) /\
      (forall r1 rest',
         rest = r1 :: rest' ->
         trafficLevel (TrafficMap.processRoute r0) = moderate ->
         trafficLevel (TrafficMap.processRoute r1) = free ->
         toasts (trace r) = [TrafficDetected]) /\
      ((forall p, In p ps -> trafficLevel p = heavy) ->
       toasts (trace r) = [])) /\
     (map_throws w ps = true ->
      toasts (trace r) = [RouteError] /\
      ~ In (Notify TrafficDetected) (trace r))) /\
  (forall (w : World) (dest : string) (coords : option LngLat)
          (st : TrafficMap.State),
     let r := TrafficMap.getRoutes w dest coords st in
     (In (Notify TrafficDetected) (trace r) ->
      exists origin destCoords data r0 rest,
        TrafficMap.userLocation st = Some origin /\
        JS.truthy dest = true /\
        destinationOf w dest coords = Some destCoords /\
        directions w origin destCoords = Body data /\
        Mapbox.routes data = Some (r0 :: rest) /\
        map_throws w (map TrafficMap.processRoute (r0 :: rest)) = false /\
        TrafficMap.suggestsAlternative
          (map TrafficMap.processRoute (r0 :: rest)) = true) /\
     TrafficMap.selectedRouteIndex (final r)
     = TrafficMap.selectedRouteIndex st).
Proof.
  assert (Hex : forall (r0 r1 : Mapbox.Route) (rest : list Mapbox.Route),
     trafficLevel (TrafficMap.processRoute r0) = moderate ->
     trafficLevel (TrafficMap.processRoute r1) = free ->
     TrafficMap.suggestsAlternative
       (map TrafficMap.processRoute (r0 :: r1 :: rest)) = true).
  { intros r0 r1 rest H0 H1. apply suggestsAlternative_spec. split.
    + exists (TrafficMap.processRoute r0),
        (map TrafficMap.processRoute (r1 :: rest)).
      split; [reflexivity|].
      destruct (hasTraffic (TrafficMap.processRoute r0)) eqn:E; auto.
      apply processed_no_traffic_iff_free in E. congruence.
    + exists (TrafficMap.processRoute r1). split; [|exact H1].
      cbn [map In]. auto. }
  assert (Hheavy : forall rs : list Mapbox.Route,
     (forall r, In r rs ->
                trafficLevel (TrafficMap.processRoute r) = heavy) ->
     TrafficMap.suggestsAlternative (map TrafficMap.processRoute rs)
     = false).
  { intros rs Hall.
    destruct (TrafficMap.suggestsAlternative _) eqn:E; [|reflexivity].
    apply suggestsAlternative_spec in E.
    destruct E as [_ [p [Hin Hp]]].
    apply in_map_iff in Hin. destruct Hin as [r [<- Hr]].
    rewrite (Hall r Hr) in Hp. discriminate. }
  split; [|split; [exact Hex|split; [exact Hheavy|split]]].
  - intros rs ps. split; [apply suggestsAlternative_spec|].
    split; intros [p [Hin Hp]]; exists p; split; auto;
      apply in_map_iff in Hin; destruct Hin as [r [<- _]];
      now apply processed_no_traffic_iff_free.
  - intros w dest coords st origin destCoords data r0 rest
      Ho Ht Hdest Hd Hr ps r advised.
    destruct (getRoutes_answered w dest coords st origin destCoords data r0
                rest Ho Ht Hdest Hd Hr) as [Htrace Hroutes].
    destruct (getRoutes_answered_toasts w dest coords st origin destCoords
                data r0 rest Ho Ht Hdest Hd Hr) as [Htoasts _].
    fold ps r in Htrace, Hroutes, Htoasts.
    assert (Hadv : TrafficMap.suggestsAlternative ps = true <-> advised).
    { subst ps advised. rewrite suggestsAlternative_spec. split.
      - intros [[p0 [l [E Hp0]]] Hfree]. injection E as <- _. auto.
      - intros [Hp0 Hfree]. split; [|exact Hfree].
        eexists. eexists. split; [reflexivity | exact Hp0]. }
    split; [exact Hroutes|]. split.
    { rewrite Htrace. apply in_or_app. right. right. left. reflexivity. }
    split.
    + intros Hm. rewrite Hm in Htoasts.
      rewrite In_toasts, Htoasts.
      split; [|split; [|split; [|split]]].
      * rewrite <- Hadv.
        destruct (TrafficMap.suggestsAlternative ps); cbn [In];
          split; auto; try discriminate; intros [H|[]]; discriminate.
      * intros Ha. apply Hadv in Ha. rewrite Ha. reflexivity.
      * intros Ha.
        destruct (TrafficMap.suggestsAlternative ps) eqn:E;
          [|reflexivity].
        exfalso. apply Ha, Hadv. reflexivity.
      * intros r1 rest' -> H0 H1. subst ps.
        rewrite (Hex r0 r1 rest' H0 H1). reflexivity.
      * intros Hall. subst ps. rewrite Hheavy; [reflexivity|].
        intros x Hx. apply Hall. now apply in_map.
    + intros Hm. rewrite Hm in Htoasts. split; [exact Htoasts|].
      rewrite In_toasts, Htoasts. intros [H|[]]. discriminate.
  - intros w dest coords st r. split.
    + apply getRoutes_advisory_only_if.
    + apply getRoutes_keeps_selectedRouteIndex.
Qed.

(** The destination "Library" typed in a town where only the library can
    be reached: a first route with a "heavy" segment and a second one
    without congestion, and the advisory is the one notification. *)
Lemma alternative_advisory_witness :
  toasts (trace (TrafficMap.getRoutes Sample.town "Library" None
                   Sample.located)) = [TrafficDetected].
Proof.
  destruct (proj1 (proj2 (proj2 (proj2 alternative_advisory_iff)))
              Sample.town "Library" None Sample.located Sample.here
              Sample.there
              {| Mapbox.routes :=
                   Some [Sample.route Sample.there (Some ["heavy"; "low"]);
                         Sample.route Sample.there (Some ["low"]);
                         Sample.route Sample.there (Some ["moderate"])] |}
              (Sample.route Sample.there (Some ["heavy"; "low"]))
              [Sample.route Sample.there (Some ["low"]);
               Sample.route Sample.there (Some ["moderate"])]
              eq_refl eq_refl eq_refl eq_refl eq_refl)
    as [_ [_ [Hdrawn _]]].
  destruct (Hdrawn eq_refl) as [_ [Hshown _]].
  apply Hshown. split; [reflexivity|].
  eexists. split; [right; left; reflexivity | reflexivity].
Defined.

(** ** The selected route index *)

(** C4, as stated, fails: three routes are fetched, the third is selected,
    and a new search that returns a single route leaves the selected index
    at 2, past the end of the new list. *)
Lemma selected_index_survives_a_new_fetch :
  let s1 := final (TrafficMap.getRoutes Sample.threeRoutes
                     "Library, Springfield" (Some Sample.there)
                     Sample.located) in
  let s2 := final (TrafficMap.selectRoute Sample.threeRoutes 2 s1) in
  let s3 := final (TrafficMap.getRoutes Sample.oneRoute
                     "Library Ave, Shelbyville" (Some Sample.elsewhere)
                     s2) in
  List.length (TrafficMap.routes s1) = 3%nat /\
  validSelection s2 /\
  List.length (TrafficMap.routes s3) = 1%nat /\
  TrafficMap.selectedRouteIndex s3 = 2%nat /\
  ~ validSelection s3.
Proof.
  unfold validSelection. cbn.
  repeat split; try reflexivity; lia.
Qed.

Lemma selectRoute_sets_index (w : World) (i : nat) (st : TrafficMap.State) :
  TrafficMap.selectedRouteIndex (final (TrafficMap.selectRoute w i st)) = i
  /\ TrafficMap.routes (final (TrafficMap.selectRoute w i st))
     = TrafficMap.routes st.
Proof. run_cases; split; reflexivity. Qed.

(** C4, amended.  A route fetch leaves the selected route index as it was
    (zero in the first render, afterwards what [selectRoute] last stored):
    it is not reset when the candidate list is replaced.  So after a fetch
    the selected index is a valid index into the candidate list exactly
    when the index of before is smaller than the length of the list of
    after; an index of zero is valid in every non-empty list.  [selectRoute]
    stores the index it is given and leaves the list alone. *)
Theorem fetch_keeps_selected_index (w : World) (dest : string)
  (coords : option LngLat) (st : TrafficMap.State) :
  let st' := final (TrafficMap.getRoutes w dest coords st) in
  TrafficMap.selectedRouteIndex TrafficMap.initial = 0%nat /\
  TrafficMap.selectedRouteIndex st' = TrafficMap.selectedRouteIndex st /\
  (validSelection st' <->
     (TrafficMap.selectedRouteIndex st
      < List.length (TrafficMap.routes st'))%nat) /\
  (TrafficMap.selectedRouteIndex st = 0%nat ->
     TrafficMap.routes st' <> [] -> validSelection st') /\
  (forall i : nat,
     let sel := final (TrafficMap.selectRoute w i st) in
     TrafficMap.selectedRouteIndex sel = i /\
     TrafficMap.routes sel = TrafficMap.routes st).
Proof.
  intros st'.
  pose proof (getRoutes_keeps_selectedRouteIndex w dest coords st) as Hk.
  fold st' in Hk. unfold validSelection. rewrite Hk.
  split; [reflexivity|]. split; [reflexivity|]. split; [reflexivity|].
  split.
  - intros -> Hne. destruct (TrafficMap.routes st'); [congruence|].
    cbn. lia.
  - intros i. apply selectRoute_sets_index.
Qed.

(** The selection of the counterexample's first two steps is kept by the
    third, and is valid only in a list of three routes or more. *)
Lemma fetch_keeps_selected_index_witness :
  let s2 := final (TrafficMap.selectRoute Sample.threeRoutes 2
                     (final (TrafficMap.getRoutes Sample.threeRoutes
                               "Library, Springfield" (Some Sample.there)
                               Sample.located))) in
  TrafficMap.selectedRouteIndex
    (final (TrafficMap.getRoutes Sample.oneRoute "Library Ave, Shelbyville"
              (Some Sample.elsewhere) s2)) = 2%nat.
Proof.
  intros s2.
  rewrite (proj1 (proj2 (fetch_keeps_selected_index Sample.oneRoute
                           "Library Ave, Shelbyville"
                           (Some Sample.elsewhere) s2))).
  reflexivity.
Defined.

(** ** The search box and the route fetcher *)

Section SearchBox.

Variable P : Type.
Variable cb : string -> option LngLat -> Eff P unit.

Lemma selectSuggestion_eq (sug : SearchInput.Suggestion)
  (s : SearchInput.State) (p : P) :
  let r := cb (Mapbox.place_name sug) (Some (Mapbox.center sug)) p in
  SearchInput.selectSuggestion cb sug (s, p) =
  (completion r,
   ({| SearchInput.query := Mapbox.place_name sug;
       SearchInput.suggestions := [];
       SearchInput.showSuggestions := false;
       SearchInput.selectedIndex := -1 |}, final r),
   trace r).
Proof.
  run. cbn. destruct (cb _ _ p) as [[c p'] t]. reflexivity.
Qed.

Lemma handleSearch_eq (s : SearchInput.State) (p : P) :
  JS.truthy (JS.trim (SearchInput.query s)) = true ->
  let r := cb (JS.trim (SearchInput.query s)) None p in
  SearchInput.handleSearch cb (s, p) =
  (completion r,
   ({| SearchInput.query := SearchInput.query s;
       SearchInput.suggestions := SearchInput.suggestions s;
       SearchInput.showSuggestions := false;
       SearchInput.selectedIndex := SearchInput.selectedIndex s |}, final r),
   trace r).
Proof.
  intros Ht. run. cbn. rewrite Ht. cbn.
  destruct (cb _ _ p) as [[c p'] t]. reflexivity.
Qed.



(** Enter with no dropdown, or with nothing under the cursor, submits the
    typed text. *)
Lemma handleKeyDown_Enter_free_text (s : SearchInput.State) (p : P) :
  SearchInput.showSuggestions s = false \/
  SearchInput.suggestions s = [] \/
  (SearchInput.selectedIndex s < 0)%Z ->
  final (SearchInput.handleKeyDown cb "Enter" (s, p))
  = final (SearchInput.handleSearch cb (s, p)) /\
  requests (trace (SearchInput.handleKeyDown cb "Enter" (s, p)))
  = requests (trace (SearchInput.handleSearch cb (s, p))).
Proof.
  intros Hfree.
  unfold SearchInput.handleKeyDown.
  cbv [function_ bind own get fst snd emit return_ ret].
  destruct (negb (SearchInput.showSuggestions s)
            || (List.length (SearchInput.suggestions s) =? 0)%nat) eqn:Hd.
  - cbn [String.eqb Ascii.eqb Bool.eqb andb].
    destruct (SearchInput.handleSearch cb (s, p)) as [[c sp] t].
    destruct c; cbn [app final trace fst snd]; rewrite ?app_nil_r;
      split; reflexivity.
  - apply orb_false_iff in Hd. destruct Hd as [Hs Hn].
    apply negb_false_iff in Hs.
    destruct Hfree as [Hf|[Hf|Hf]].
    + congruence.
    + rewrite Hf in Hn. discriminate.
    + cbn [String.eqb Ascii.eqb Bool.eqb andb].
      assert (Hge : (SearchInput.selectedIndex s >=? 0)%Z = false)
        by (rewrite Z.geb_leb; apply Z.leb_gt; exact Hf).
      rewrite Hge.
      destruct (SearchInput.handleSearch cb (s, p)) as [[c sp] t].
      destruct c; split; reflexivity.
Qed.

End SearchBox.

Lemma getRoutes_with_coordinates (w : World) (dest : string) (c : LngLat)
  (st : TrafficMap.State) :
  geocodeCalls (trace (TrafficMap.getRoutes w dest (Some c) st)) = 0%nat.
Proof. run_cases; reflexivity. Qed.


Lemma getRoutes_text_geocodes_first (w : World) (dest : string)
  (st : TrafficMap.State) (origin : LngLat) :
  TrafficMap.userLocation st = Some origin ->
  JS.truthy dest = true ->
  geocodeCalls (trace (TrafficMap.getRoutes w dest None st)) = 1%nat /\
  hd_error (requests (trace (TrafficMap.getRoutes w dest None st)))
  = Some (Geocoding dest 1 []).
Proof.
  intros Ho Ht. run. rewrite Ho, Ht. cbv beta iota zeta delta [negb].
  repeat (break_match; cbv beta iota zeta); split; reflexivity.
Qed.

Lemma geocodeCalls_requests (t : list Event) :
  geocodeCalls t
  = List.length (filter (fun r => match r with
                                  | Geocoding _ _ _ => true
                                  | _ => false
                                  end) (requests t)).
Proof.
  unfold geocodeCalls.
  induction t as [|e t IH]; [reflexivity|].
  destruct e as [r| | | | |]; cbn [requests filter isGeocodeCall]; auto.
  destruct r; cbn [filter List.length]; auto.
Qed.





(** ** The multi-stop optimizer *)

(** C6. Without a user position, or with fewer than two waypoints,
    [optimizeRoute] shows the "Need more waypoints" notification and does
    nothing else: it sends no request, does not call the parent and leaves
    the waypoint list (the whole state of the panel, and the parent's) as
    it was. *)
Theorem optimize_needs_origin_and_two_waypoints (P : Type)
  (onOptimizedRoute : list LngLat -> list string -> Eff P unit)
  (w : World) (userLocation : option LngLat)
  (st : OptimizationPanel.State) (p : P) :
  userLocation = None \/
  (List.length (OptimizationPanel.waypoints st) < 2)%nat ->
  let r := OptimizationPanel.optimizeRoute onOptimizedRoute w userLocation
             (st, p) in
  networkCalls (trace r) = 0%nat /\
  toasts (trace r) = [NeedMoreWaypoints] /\
  trace r = [Notify NeedMoreWaypoints] /\
  OptimizationPanel.waypoints (fst (final r))
  = OptimizationPanel.waypoints st /\
  final r = (st, p).
Proof.
  intros Hguard. run.
  destruct userLocation as [origin|].
  - destruct Hguard as [Hnone|Hfew]; [discriminate|].
    apply Nat.ltb_lt in Hfew. rewrite Hfew.
    repeat split; reflexivity.
  - repeat split; reflexivity.
Qed.

(** One stop and a known position: the optimization is refused. *)
Lemma optimize_needs_two_waypoints_witness :
  let r := OptimizationPanel.optimizeRoute
             (TrafficMap.handleOptimizedRoute true Sample.offline)
             Sample.offline (Some Sample.here)
             (Sample.oneStop, Sample.located) in
  networkCalls (trace r) = 0%nat /\
  toasts (trace r) = [NeedMoreWaypoints] /\
  trace r = [Notify NeedMoreWaypoints] /\
  OptimizationPanel.waypoints (fst (final r))
  = OptimizationPanel.waypoints Sample.oneStop /\
  final r = (Sample.oneStop, Sample.located).
Proof.
  apply (optimize_needs_origin_and_two_waypoints TrafficMap.State
           (TrafficMap.handleOptimizedRoute true Sample.offline)
           Sample.offline (Some Sample.here) Sample.oneStop Sample.located).
  right. cbn. lia.
Defined.

(** ** Failures of a route fetch *)

(** C7, as stated, fails: the state is not left as it was.  The
    destination text is stored before the first request is sent, so after a
    failed geocode request the component holds the new destination. *)
Lemma failed_fetch_stores_the_destination :
  let r := TrafficMap.getRoutes Sample.offline "Paris" None
             Sample.located in
  fails Sample.offline (Geocoding "Paris" 1 []) = true /\
  trace r = [Fetch (Geocoding "Paris" 1 []); Notify RouteError] /\
  TrafficMap.destination Sample.located = "" /\
  TrafficMap.destination (final r) = "Paris" /\
  final r <> Sample.located.
Proof.
  cbn. repeat split; try reflexivity.
  intros H. apply (f_equal TrafficMap.destination) in H. discriminate.
Qed.

(** C7, amended.  When a request of a route fetch fails by a network or a
    parse failure, the run shows exactly one notification, "Route Error";
    it sends each kind of request at most once and the failed request is
    its last one (nothing is retried); the candidate list, the selected
    index, the user position and the panel flag are left as they were.  The
    destination text is the one asked for and the loading flag is off. *)
Theorem failed_fetch_keeps_routes (w : World) (dest : string)
  (coords : option LngLat) (st : TrafficMap.State) :
  let r := TrafficMap.getRoutes w dest coords st in
  (exists req, In (Fetch req) (trace r) /\ fails w req = true) ->
  toasts (trace r) = [RouteError] /\
  (geocodeCalls (trace r) <= 1)%nat /\
  (directionsCalls (trace r) <= 1)%nat /\
  (exists earlier req,
     requests (trace r) = earlier ++ [req] /\ fails w req = true) /\
  TrafficMap.routes (final r) = TrafficMap.routes st /\
  TrafficMap.selectedRouteIndex (final r)
  = TrafficMap.selectedRouteIndex st /\
  TrafficMap.userLocation (final r) = TrafficMap.userLocation st /\
  TrafficMap.showOptimization (final r) = TrafficMap.showOptimization st /\
  TrafficMap.destination (final r) = dest /\
  TrafficMap.isLoading (final r) = false.
Proof.
  run_cases.
  all: intros [req [Hin Hfail]]; in_cases Hin; try discriminate.
  all: try (injection Hin as <-; cbn [fails] in Hfail;
            match goal with
            | H : _ = Body _ |- _ => rewrite H in Hfail; discriminate
            end).
  all: injection Hin as <-.
  all: repeat split; try reflexivity; try assumption; cbn; try lia.
  all: first [ exists []; eexists; split; [reflexivity | exact Hfail]
             | eexists [_]; eexists; split; [reflexivity | exact Hfail] ].
Qed.

(** The service is out of reach: one "Route Error", no routes. *)
Lemma failed_fetch_keeps_routes_witness :
  toasts (trace (TrafficMap.getRoutes Sample.offline "Paris" None
                   Sample.located)) = [RouteError].
Proof.
  apply (failed_fetch_keeps_routes Sample.offline "Paris" None
           Sample.located).
  exists (Geocoding "Paris" 1 []). split; [cbn; auto | reflexivity].
Defined.

(** ** Keyboard navigation in the dropdown *)

(** C8, as stated, fails: ArrowUp at the first index does not leave the
    cursor there, it moves it to -1 (no suggestion under the cursor). *)
Lemma arrow_up_at_first_index_clears_cursor :
  let s := Sample.browsing "Lib" 0 in
  let r := SearchInput.handleKeyDown
             (TrafficMap.getRoutes Sample.offline) "ArrowUp"
             (s, Sample.located) in
  SearchInput.selectedIndex s = 0%Z /\
  SearchInput.selectedIndex (fst (final r)) = (-1)%Z /\
  SearchInput.selectedIndex (fst (final r)) <> SearchInput.selectedIndex s.
Proof. cbn. repeat split; discriminate. Qed.

Section Keyboard.

Variable P : Type.
Variable cb : string -> option LngLat -> Eff P unit.

(** The state in which the arrow keys and Escape act: the dropdown is shown
    and is not empty. *)
Lemma handleKeyDown_open (s : SearchInput.State) :
  SearchInput.showSuggestions s = true ->
  SearchInput.suggestions s <> [] ->
  negb (SearchInput.showSuggestions s)
  || (List.length (SearchInput.suggestions s) =? 0)%nat = false.
Proof.
  intros -> Hne. destruct (SearchInput.suggestions s); [congruence|].
  reflexivity.
Qed.

(** C8, amended.  With the dropdown shown on a non-empty list of [n]
    suggestions and the cursor at [i]: ArrowDown moves the cursor to [i + 1]
    when [i < n - 1] and leaves it otherwise, so at the last index it stays
    at the last index; ArrowUp moves it to [i - 1] when [i > 0] and to -1
    (no suggestion under the cursor) otherwise, so at the first index it
    moves to -1 and at -1 it stays; a cursor within -1 .. n - 1 stays
    within -1 .. n - 1, without wrapping.  Escape hides the dropdown, puts
    the cursor at -1 and leaves the query text and the stored suggestions
    as they were.  None of the three keys changes the query text or calls
    the route fetcher. *)
Theorem keyboard_cursor_is_clamped (s : SearchInput.State) (p : P) :
  SearchInput.showSuggestions s = true ->
  SearchInput.suggestions s <> [] ->
  let n := Z.of_nat (List.length (SearchInput.suggestions s)) in
  let i := SearchInput.selectedIndex s in
  let down := afterKey cb "ArrowDown" s p in
  let up := afterKey cb "ArrowUp" s p in
  let esc := afterKey cb "Escape" s p in
  (SearchInput.selectedIndex down
   = if (i <? n - 1)%Z then (i + 1)%Z else i) /\
  (i = (n - 1)%Z -> SearchInput.selectedIndex down = i) /\
  (SearchInput.selectedIndex up
   = if (i >? 0)%Z then (i - 1)%Z else (-1)%Z) /\
  (i = 0%Z -> SearchInput.selectedIndex up = (-1)%Z) /\
  (i = (-1)%Z -> SearchInput.selectedIndex up = (-1)%Z) /\
  ((-1 <= i <= n - 1)%Z ->
     (-1 <= SearchInput.selectedIndex down <= n - 1)%Z /\
     (-1 <= SearchInput.selectedIndex up <= n - 1)%Z) /\
  (SearchInput.showSuggestions esc = false /\
   SearchInput.selectedIndex esc = (-1)%Z /\
   SearchInput.query esc = SearchInput.query s /\
   SearchInput.suggestions esc = SearchInput.suggestions s) /\
  (SearchInput.query down = SearchInput.query s /\
   SearchInput.query up = SearchInput.query s) /\
  (forall key, In key ["ArrowDown"; "ArrowUp"; "Escape"] ->
     snd (final (SearchInput.handleKeyDown cb key (s, p))) = p /\
     requests (trace (SearchInput.handleKeyDown cb key (s, p))) = []).
Proof.
  intros Hshow Hne n i down up esc.
  pose proof (handleKeyDown_open s Hshow Hne) as Hopen.
  assert (Hdown : SearchInput.selectedIndex down
                  = if (i <? n - 1)%Z then (i + 1)%Z else i).
  { subst down. key_step Hopen. }
  assert (Hup : SearchInput.selectedIndex up
                = if (i >? 0)%Z then (i - 1)%Z else (-1)%Z).
  { subst up. key_step Hopen. }
  assert (n >= 1)%Z.
  { subst n. destruct (SearchInput.suggestions s); [congruence|].
    cbn [List.length]. lia. }
  repeat match goal with |- _ /\ _ => split end.
  - exact Hdown.
  - intros Hi. rewrite Hdown.
    destruct (Z.ltb_spec i (n - 1)); [lia | reflexivity].
  - exact Hup.
  - intros Hi. rewrite Hup, Hi. reflexivity.
  - intros Hi. rewrite Hup, Hi. reflexivity.
  - intros Hi. rewrite Hdown, Hup.
    destruct (Z.ltb_spec i (n - 1)), (Z.gtb_spec i 0); lia.
  - subst esc. key_step Hopen.
  - subst esc. key_step Hopen.
  - subst esc. key_step Hopen.
  - subst esc. key_step Hopen.
  - subst down. key_step Hopen.
  - subst up. key_step Hopen.
  - intros key Hkey. in_cases Hkey; subst key; split; key_step Hopen.
Qed.

End Keyboard.

(** Two suggestions, the cursor on the second: ArrowDown leaves it there. *)
Lemma keyboard_cursor_witness :
  SearchInput.selectedIndex
    (afterKey (TrafficMap.getRoutes Sample.offline) "ArrowDown"
       (Sample.browsing "Lib" 1) Sample.located) = 1%Z.
Proof.
  refine (proj1 (proj2 (keyboard_cursor_is_clamped TrafficMap.State
                          (TrafficMap.getRoutes Sample.offline)
                          (Sample.browsing "Lib" 1) Sample.located
                          _ _)) _).
  - reflexivity.
  - discriminate.
  - reflexivity.
Defined.

(** ** Autocomplete lookups *)

(** C9, as stated, fails: the answer's features are stored as they come.
    When the service answers a lookup with six features, six suggestions
    are stored. *)
Lemma six_features_are_all_stored :
  let r := SearchInput.searchSuggestions Sample.sixFeatures "pk.token"
             "Library" (SearchInput.initial, Sample.located) in
  requests (trace r)
  = [Geocoding "Library" 5 SearchInput.autocompleteTypes] /\
  List.length (SearchInput.suggestions (fst (final r))) = 6%nat /\
  ~ (List.length (SearchInput.suggestions (fst (final r))) <= 5)%nat.
Proof. repeat split; try reflexivity. vm_compute. lia. Qed.

Section Autocomplete.

Variable P : Type.
Variable w : World.
Variable mapboxToken : string.

(** C9, amended.  An autocomplete lookup (sent with a token, for a query
    that is not blank) asks the service for at most five entries
    ([limit=5]); when the answer carries a feature list, the stored
    suggestion list is that list, whole and in its order, the dropdown is
    shown and the cursor is at -1.  So the stored list has at most five
    entries whenever the service returned at most five. *)
Theorem suggestions_are_the_returned_features (searchQuery : string)
  (s : SearchInput.State) (p : P) (data : Mapbox.GeocodeData)
  (features : list SearchInput.Suggestion) :
  JS.truthy mapboxToken = true ->
  JS.truthy (JS.trim searchQuery) = true ->
  geocoding w searchQuery 5 SearchInput.autocompleteTypes = Body data ->
  Mapbox.features data = Some features ->
  let r := SearchInput.searchSuggestions w mapboxToken searchQuery (s, p) in
  trace r = [Fetch (Geocoding searchQuery 5 SearchInput.autocompleteTypes)]
  /\ SearchInput.suggestions (fst (final r)) = features
  /\ SearchInput.showSuggestions (fst (final r)) = true
  /\ SearchInput.selectedIndex (fst (final r)) = (-1)%Z
  /\ SearchInput.query (fst (final r)) = SearchInput.query s
  /\ ((List.length features <= 5)%nat ->
      (List.length (SearchInput.suggestions (fst (final r))) <= 5)%nat).
Proof.
  intros Htoken Hquery Hbody Hfeatures.
  run. rewrite Htoken, Hquery, Hbody. cbv beta iota zeta delta [negb orb].
  rewrite Hfeatures. cbv beta iota zeta.
  repeat split. auto.
Qed.

(** C10. When the debounce timer fires on a query of length two or fewer
    (the empty query, but also a query such as a two-letter word), no
    lookup is issued: the run sends no request, stores the empty suggestion
    list and hides the dropdown, and changes nothing else. *)
Theorem short_query_clears_suggestions (s : SearchInput.State) (p : P) :
  (String.length (SearchInput.query s) <= 2)%nat ->
  let r := SearchInput.debouncedSearch w mapboxToken (s, p) in
  networkCalls (trace r) = 0%nat /\
  trace r = [] /\
  SearchInput.suggestions (fst (final r)) = [] /\
  SearchInput.showSuggestions (fst (final r)) = false /\
  SearchInput.query (fst (final r)) = SearchInput.query s /\
  SearchInput.selectedIndex (fst (final r)) = SearchInput.selectedIndex s /\
  snd (final r) = p.
Proof.
  intros Hshort.
  assert (Hlen : (2 <? String.length (SearchInput.query s))%nat = false)
    by (apply Nat.ltb_ge; exact Hshort).
  unfold SearchInput.debouncedSearch.
  cbv [bind own get fst snd]. rewrite Hlen.
  repeat split.
Qed.

(** A longer query is looked up. *)
Lemma long_query_is_looked_up (s : SearchInput.State) (p : P) :
  (2 < String.length (SearchInput.query s))%nat ->
  SearchInput.debouncedSearch w mapboxToken (s, p)
  = SearchInput.searchSuggestions w mapboxToken (SearchInput.query s) (s, p).
Proof.
  intros Hlong. apply Nat.ltb_lt in Hlong.
  unfold SearchInput.debouncedSearch.
  cbv [bind own get fst snd]. rewrite Hlong.
  destruct (SearchInput.searchSuggestions _ _ _ _) as [[c sp] t].
  destruct c; reflexivity.
Qed.

End Autocomplete.

(** A service that keeps to the limit: the two features it returns are the
    two suggestions stored. *)
Lemma suggestions_are_the_returned_features_witness :
  SearchInput.suggestions
    (fst (final (SearchInput.searchSuggestions
                   (Sample.serving [Sample.library; Sample.libraryAve] [])
                   "pk.token" "Library"
                   (SearchInput.initial, Sample.located))))
  = [Sample.library; Sample.libraryAve].
Proof.
  refine (proj1 (proj2
    (suggestions_are_the_returned_features TrafficMap.State
       (Sample.serving [Sample.library; Sample.libraryAve] [])
       "pk.token" "Library" SearchInput.initial Sample.located
       {| Mapbox.features := Some [Sample.library; Sample.libraryAve] |}
       [Sample.library; Sample.libraryAve] _ _ _ _))); reflexivity.
Defined.

(** The two-letter query "ab": a service that would answer is not asked. *)
Lemma short_query_witness :
  let r := SearchInput.debouncedSearch Sample.sixFeatures "pk.token"
             (Sample.browsing "ab" 0, Sample.located) in
  networkCalls (trace r) = 0%nat /\
  SearchInput.suggestions (fst (final r)) = [] /\
  SearchInput.showSuggestions (fst (final r)) = false.
Proof.
  intros r.
  destruct (short_query_clears_suggestions TrafficMap.State
              Sample.sixFeatures "pk.token"
              (Sample.browsing "ab" 0) Sample.located)
    as [Hn [_ [Hs [Hd _]]]].
  - cbn. lia.
  - repeat split; assumption.
Defined.

(** * Further properties of the components *)

(** ** Route fetches *)

(** A route fetch that does not start (no user position, or an empty
    destination) changes nothing and does nothing; one that starts ends
    with the loading flag off and the destination stored, whatever the
    service answers and whether or not the map widget throws.  The user
    position and the panel flag are never written. *)
Theorem getRoutes_never_leaves_loading_on (w : World) (dest : string)
  (coords : option LngLat) (st : TrafficMap.State) :
  let r := TrafficMap.getRoutes w dest coords st in
  (TrafficMap.userLocation st = None \/ JS.truthy dest = false ->
   r = (Normal tt, st, [])) /\
  (TrafficMap.userLocation st <> None -> JS.truthy dest = true ->
   TrafficMap.isLoading (final r) = false /\
   TrafficMap.destination (final r) = dest) /\
  TrafficMap.userLocation (final r) = TrafficMap.userLocation st /\
  TrafficMap.showOptimization (final r) = TrafficMap.showOptimization st.
Proof.
  cbv zeta. split; [|split; [|split]].
  - intros [Ho|Ht].
    + now apply getRoutes_without_origin.
    + run. rewrite Ht. destruct (TrafficMap.userLocation st); reflexivity.
  - intros Ho Ht. run. rewrite Ht.
    destruct (TrafficMap.userLocation st) as [origin|]; [|congruence].
    cbv beta iota zeta delta [negb].
    repeat (break_match; cbv beta iota zeta); split; reflexivity.
  - run_cases; try reflexivity; cbn [TrafficMap.userLocation]; congruence.
  - run_cases; reflexivity.
Qed.

Lemma getRoutes_loading_witness :
  TrafficMap.isLoading
    (final (TrafficMap.getRoutes Sample.offline "Paris" None
              Sample.located)) = false.
Proof.
  apply (proj1 (proj2 (getRoutes_never_leaves_loading_on Sample.offline
                         "Paris" None Sample.located))).
  - discriminate.
  - reflexivity.
Defined.

(** When the geocoding answer for a typed destination has an empty feature
    list, the fetch shows "Destination Not Found" and stops: the geocode
    request is the only request, no directions are asked for and the
    candidate list is kept. *)
Theorem getRoutes_destination_not_found (w : World) (dest : string)
  (st : TrafficMap.State) (origin : LngLat) (data : Mapbox.GeocodeData) :
  TrafficMap.userLocation st = Some origin ->
  JS.truthy dest = true ->
  geocoding w dest 1 [] = Body data ->
  Mapbox.features data = Some [] ->
  let r := TrafficMap.getRoutes w dest None st in
  trace r = [Fetch (Geocoding dest 1 []); Notify DestinationNotFound] /\
  directionsCalls (trace r) = 0%nat /\
  TrafficMap.routes (final r) = TrafficMap.routes st /\
  TrafficMap.selectedRouteIndex (final r) = TrafficMap.selectedRouteIndex st.
Proof.
  intros Ho Ht Hg Hf. run. rewrite Ho, Ht. cbv beta iota zeta delta [negb].
  rewrite Hg. cbv beta iota zeta. rewrite Hf. cbv beta iota zeta.
  repeat split.
Qed.

Lemma getRoutes_destination_not_found_witness :
  trace (TrafficMap.getRoutes (Sample.serving [] []) "Atlantis" None
           Sample.located)
  = [Fetch (Geocoding "Atlantis" 1 []); Notify DestinationNotFound].
Proof.
  refine (proj1 (getRoutes_destination_not_found (Sample.serving [] [])
                   "Atlantis" Sample.located Sample.here
                   {| Mapbox.features := Some [] |} _ _ _ _));
    reflexivity.
Defined.

(** When the answer to the directions request (to the coordinates given,
    or to the first feature found for a typed destination) has no route
    list, or an empty one, the fetch ends without any notification: its
    requests (the geocode request of a typed destination, then the
    directions request) are all that happens, and the candidate list is
    kept. *)
Theorem getRoutes_without_routes_is_silent (w : World) (dest : string)
  (coords : option LngLat) (st : TrafficMap.State)
  (origin destCoords : LngLat) (data : Mapbox.DirectionsData) :
  TrafficMap.userLocation st = Some origin ->
  JS.truthy dest = true ->
  destinationOf w dest coords = Some destCoords ->
  directions w origin destCoords = Body data ->
  Mapbox.routes data = None \/ Mapbox.routes data = Some [] ->
  let r := TrafficMap.getRoutes w dest coords st in
  trace r = lookups dest coords ++ [Fetch (Directions origin destCoords)] /\
  toasts (trace r) = [] /\
  TrafficMap.routes (final r) = TrafficMap.routes st /\
  TrafficMap.selectedRouteIndex (final r) = TrafficMap.selectedRouteIndex st.
Proof.
  intros Ho Ht Hdest Hd Hr. cbv zeta.
  unfold destinationOf in Hdest. destruct coords as [c|].
  - injection Hdest as ->. unfold lookups.
    run. rewrite Ho, Ht. cbv beta iota zeta delta [negb].
    rewrite Hd. cbv beta iota zeta.
    destruct Hr as [Hr|Hr]; rewrite Hr; repeat split.
  - destruct (geocoding w dest 1 []) as [| |g] eqn:Hg; try discriminate.
    destruct (Mapbox.features g) as [[|f fs]|] eqn:Hf; try discriminate.
    injection Hdest as <-. unfold lookups.
    run. rewrite Ho, Ht. cbv beta iota zeta delta [negb].
    rewrite Hg. cbv beta iota zeta. rewrite Hf. cbv beta iota zeta.
    rewrite Hd. cbv beta iota zeta.
    destruct Hr as [Hr|Hr]; rewrite Hr; repeat split.
Qed.

(** "Library" typed while the service finds the place and no route to it:
    the geocode request, the directions request to the place, and
    nothing else. *)
Lemma getRoutes_without_routes_witness :
  trace (TrafficMap.getRoutes Sample.sixFeatures "Library" None
           Sample.located)
  = [Fetch (Geocoding "Library" 1 []);
     Fetch (Directions Sample.here Sample.there)].
Proof.
  refine (proj1 (getRoutes_without_routes_is_silent
                   Sample.sixFeatures "Library" None
                   Sample.located Sample.here Sample.there
                   {| Mapbox.routes := Some [] |} _ _ _ _ _));
    try reflexivity.
  right; reflexivity.
Defined.

Lemma nth_error_processRoute (rs : list Mapbox.Route) (i : nat)
  (route : Mapbox.Route) :
  nth_error rs i = Some route ->
  nth_error (map TrafficMap.processRoute rs) i
  = Some (TrafficMap.processRoute route).
Proof. intros H. now apply map_nth_error. Qed.

(** When the answer to the directions request (to the coordinates given,
    or to the first feature found for a typed destination) carries routes,
    the candidate list becomes the list of their processed forms: as many,
    in the same order, each with the geometry, duration and distance of the
    route it comes from.  The requests of the fetch are the geocode request
    of a typed destination and then the directions request from the user
    position to the destination.  All this also holds when the map widget
    throws while drawing the routes; the run then shows "Route Error"
    although the new list is stored.  Otherwise it shows the advisory or
    nothing. *)
Theorem fetched_routes_are_stored_in_order (w : World) (dest : string)
  (coords : option LngLat) (st : TrafficMap.State)
  (origin destCoords : LngLat)
  (data : Mapbox.DirectionsData) (rs : list Mapbox.Route) :
  TrafficMap.userLocation st = Some origin ->
  JS.truthy dest = true ->
  destinationOf w dest coords = Some destCoords ->
  directions w origin destCoords = Body data ->
  Mapbox.routes data = Some rs ->
  rs <> [] ->
  let r := TrafficMap.getRoutes w dest coords st in
  let stored := TrafficMap.routes (final r) in
  stored = map TrafficMap.processRoute rs /\
  List.length stored = List.length rs /\
  (forall i route,
     nth_error rs i = Some route ->
     exists p,
       nth_error stored i = Some p /\
       geometry p = Mapbox.geometry route /\
       duration p = Mapbox.duration route /\
       distance p = Mapbox.distance route /\
       congestion p = TrafficMap.firstLegCongestion route) /\
  toasts (trace r)
  = (if map_throws w stored then [RouteError]
     else if TrafficMap.suggestsAlternative stored then [TrafficDetected]
     else []) /\
  requests (trace r)
  = requests (lookups dest coords) ++ [Directions origin destCoords].
Proof.
  intros Ho Ht Hdest Hd Hr Hne.
  destruct rs as [|r0 rest]; [congruence|].
  destruct (getRoutes_answered w dest coords st origin destCoords data r0
              rest Ho Ht Hdest Hd Hr) as [_ Hs].
  destruct (getRoutes_answered_toasts w dest coords st origin destCoords
              data r0 rest Ho Ht Hdest Hd Hr) as [Htoast Hreq].
  cbv zeta in *. rewrite Hs. split; [reflexivity|].
  split; [apply length_map|].
  split; [|split; [exact Htoast | exact Hreq]].
  intros i route Hi. exists (TrafficMap.processRoute route).
  split; [now apply nth_error_processRoute|].
  repeat split.
Qed.

(** "Library" typed in a town where only the library can be reached: the
    geocode request, then the directions request to the library, and three
    routes stored. *)
Lemma fetched_routes_witness :
  let r := TrafficMap.getRoutes Sample.town "Library" None
             Sample.located in
  List.length (TrafficMap.routes (final r)) = 3%nat /\
  requests (trace r)
  = [Geocoding "Library" 1 []; Directions Sample.here Sample.there].
Proof.
  pose (rs := [Sample.route Sample.there (Some ["heavy"; "low"]);
               Sample.route Sample.there (Some ["low"]);
               Sample.route Sample.there (Some ["moderate"])]).
  destruct (fetched_routes_are_stored_in_order
    Sample.town "Library" None Sample.located Sample.here Sample.there
    {| Mapbox.routes := Some rs |} rs eq_refl eq_refl eq_refl eq_refl
    eq_refl) as [_ [Hlen [_ [_ Hreq]]]].
  - discriminate.
  - split; [exact Hlen | exact Hreq].
Defined.

(** ** Sessions of the map component *)

Lemma processed_are_derived (rs : list Mapbox.Route) :
  Forall derived (map TrafficMap.processRoute rs).
Proof.
  apply Forall_forall. intros p Hp.
  apply in_map_iff in Hp. destruct Hp as [r [<- _]].
  split; reflexivity.
Qed.

(** The parts of [getRoutes], run one after the other with nothing in
    between, are [getRoutes]. *)
Lemma getRoutes_in_phases (w : World) (dest : string)
  (coords : option LngLat) (st : TrafficMap.State) :
  TrafficMap.uninterrupted w dest coords st
  = (final (TrafficMap.getRoutes w dest coords st),
     trace (TrafficMap.getRoutes w dest coords st)).
Proof.
  unfold TrafficMap.uninterrupted, TrafficMap.getRoutes_start,
    TrafficMap.resume, TrafficMap.getRoutes_geocoded,
    TrafficMap.getRoutes_routed, TrafficMap.ended, TrafficMap.json.
  run_cases;
    cbn [TrafficMap.userLocation TrafficMap.routes
         TrafficMap.selectedRouteIndex TrafficMap.destination
         TrafficMap.isLoading TrafficMap.showOptimization];
    first [reflexivity | congruence].
Qed.

Lemma getRoutes_start_spec (dest : string) (coords : option LngLat)
  (st : TrafficMap.State) :
  let '(st', _, p) := TrafficMap.getRoutes_start dest coords st in
  TrafficMap.userLocation st' = TrafficMap.userLocation st /\
  TrafficMap.routes st' = TrafficMap.routes st /\
  (p = None -> st' = st) /\
  (p <> None ->
   TrafficMap.userLocation st <> None /\ TrafficMap.isLoading st' = true) /\
  (TrafficMap.userLocation st <> None -> JS.truthy dest = true ->
   p <> None).
Proof.
  unfold TrafficMap.getRoutes_start.
  destruct (TrafficMap.userLocation st) as [origin|] eqn:Ho.
  2:{ rewrite Ho. repeat split; congruence. }
  destruct (JS.truthy dest); cbn [negb].
  2:{ rewrite Ho. repeat split; congruence. }
  destruct coords; run; cbn [TrafficMap.userLocation TrafficMap.routes
                              TrafficMap.isLoading];
    repeat split; congruence.
Qed.

Lemma resume_spec (w : World) (pending : TrafficMap.Pending)
  (st : TrafficMap.State) :
  let '(st', _, p) := TrafficMap.resume w pending st in
  TrafficMap.userLocation st' = TrafficMap.userLocation st /\
  (Forall derived (TrafficMap.routes st) ->
   Forall derived (TrafficMap.routes st')) /\
  (p = None -> TrafficMap.isLoading st' = false) /\
  (p <> None -> st' = st).
Proof.
  unfold TrafficMap.resume, TrafficMap.getRoutes_geocoded,
    TrafficMap.getRoutes_routed, TrafficMap.ended, TrafficMap.json.
  destruct pending; run_cases;
    cbn [TrafficMap.userLocation TrafficMap.routes TrafficMap.isLoading];
    repeat split; auto; try congruence;
    intros _; apply processed_are_derived.
Qed.

Lemma perform_keeps_settled (a : TrafficMap.Step)
  (c : TrafficMap.State * list TrafficMap.Pending) :
  settled c -> settled (TrafficMap.perform a c).
Proof.
  destruct c as [st waiting]. unfold settled. cbn [fst snd].
  intros [Hd [Hu Hl]].
  destruct a; cbn [TrafficMap.perform].
  - (* Position *)
    run_session. cbn [fst snd TrafficMap.routes TrafficMap.userLocation
                      TrafficMap.isLoading].
    repeat split; auto. discriminate.
  - (* Search *)
    pose proof (getRoutes_start_spec destination coordinates st) as Hs.
    destruct (TrafficMap.getRoutes_start destination coordinates st)
      as [[st' t] p].
    destruct Hs as [Ho [Hr [Hnone [Hsome _]]]]. cbn [fst snd].
    rewrite Ho, Hr. split; [exact Hd|]. split.
    + intros [Hne|Hne]; [now apply Hu; left|].
      destruct p as [pending|].
      * apply Hsome. discriminate.
      * cbn [TrafficMap.waitingFor] in Hne. rewrite app_nil_r in Hne.
        apply Hu. now right.
    + destruct p as [pending|].
      * intros _. destruct waiting; discriminate.
      * rewrite (Hnone eq_refl). cbn [TrafficMap.waitingFor].
        rewrite app_nil_r. exact Hl.
  - (* Answer *)
    destruct (nth_error waiting k) as [pending|] eqn:Hk;
      [|cbn [fst snd]; auto].
    assert (Hw : waiting <> []).
    { intros ->. destruct k; discriminate. }
    pose proof (resume_spec w pending st) as Hs.
    destruct (TrafficMap.resume w pending st) as [[st' t] p].
    destruct Hs as [Ho [Hder [Hnone Hsome]]]. cbn [fst snd].
    rewrite Ho. split; [now apply Hder|]. split.
    + intros _. apply Hu. now right.
    + destruct p as [next|].
      * intros _. cbn [TrafficMap.waitingFor].
        destruct (firstn k waiting); discriminate.
      * rewrite (Hnone eq_refl). discriminate.
  - (* Select *)
    run_session. repeat (break_match; cbv beta iota zeta);
      cbn [fst snd TrafficMap.routes TrafficMap.userLocation
           TrafficMap.isLoading]; repeat split; auto.
  - (* Optimized *)
    run_session. repeat (break_match; cbv beta iota zeta);
      cbn [fst snd TrafficMap.routes TrafficMap.userLocation
           TrafficMap.isLoading]; repeat split; auto.
    intros [Hne|Hne]; [congruence | apply Hu; now right].
  - (* ToggleOptimization *)
    run_session. cbn [fst snd TrafficMap.routes TrafficMap.userLocation
                      TrafficMap.isLoading].
    repeat split; auto.
Qed.

Lemma session_keeps_settled (steps : list TrafficMap.Step)
  (c : TrafficMap.State * list TrafficMap.Pending) :
  settled c -> settled (TrafficMap.session steps c).
Proof.
  revert c. induction steps as [|a rest IH]; intros c Hc; [exact Hc|].
  cbn [TrafficMap.session]. apply IH. now apply perform_keeps_settled.
Qed.

(** Whatever the user does, and whenever and with whatever content the
    answers of the service arrive (handlers run between a request of
    [getRoutes] and its answer, and fetches may overlap), the loading flag
    is on only while a fetch waits for an answer: it is on right after a
    fetch starts and off once no fetch waits.  The traffic flag and
    severity of every candidate route are the ones derived from the
    route's own tags (so a route is flagged exactly when it is not rated
    [free]), and candidate routes and waiting fetches exist only once the
    user's position is known.  A fetch whose answers arrive before anything
    else happens is a run of [getRoutes].  The flag is no sign that a fetch
    waits: of two overlapping fetches, the first to end turns it off. *)
Theorem sessions_stay_settled :
  (forall steps : list TrafficMap.Step,
     let c := TrafficMap.session steps (TrafficMap.initial, []) in
     settled c /\
     (snd c = [] -> TrafficMap.isLoading (fst c) = false) /\
     (forall r, In r (TrafficMap.routes (fst c)) ->
                (hasTraffic r = true <-> trafficLevel r <> free)) /\
     (forall dest coords,
        TrafficMap.userLocation (fst c) <> None ->
        JS.truthy dest = true ->
        let c' := TrafficMap.perform (TrafficMap.Search dest coords) c in
        TrafficMap.isLoading (fst c') = true /\
        List.length (snd c') = S (List.length (snd c))) /\
     (forall w dest coords,
        TrafficMap.uninterrupted w dest coords (fst c)
        = (final (TrafficMap.getRoutes w dest coords (fst c)),
           trace (TrafficMap.getRoutes w dest coords (fst c))))) /\
  (let c := TrafficMap.session
              [TrafficMap.Position Sample.here;
               TrafficMap.Search "Library" (Some Sample.there);
               TrafficMap.Search "Library Ave" None;
               TrafficMap.Answer 0 Sample.threeRoutes]
              (TrafficMap.initial, []) in
   TrafficMap.isLoading (fst c) = false /\
   snd c = [TrafficMap.AwaitGeocode Sample.here 0 "Library Ave"] /\
   List.length (TrafficMap.routes (fst c)) = 3%nat).
Proof.
  split; [|cbv zeta; repeat split].
  intros steps c.
  assert (Hs : settled c).
  { apply session_keeps_settled. unfold settled. cbn.
    repeat split; [constructor | intros [H|H]; congruence | discriminate]. }
  split; [exact Hs|]. split; [|split; [|split]].
  - intros Hw. destruct Hs as [_ [_ Hl]].
    destruct (TrafficMap.isLoading (fst c)); [|reflexivity].
    exfalso. now apply Hl.
  - intros r Hr. destruct Hs as [Hd _].
    rewrite Forall_forall in Hd. destruct (Hd r Hr) as [Ht Hv].
    rewrite Ht, Hv.
    pose proof (hasTrafficOf_false_iff_free (congestion r)) as Hiff.
    destruct (TrafficMap.hasTrafficOf (congestion r)); split; intros H.
    + intros Hfree. apply Hiff in Hfree. discriminate.
    + reflexivity.
    + discriminate.
    + exfalso. apply H. now apply Hiff.
  - intros dest coords Ho Ht c'. subst c'.
    destruct c as [st waiting]. cbn [fst snd TrafficMap.perform] in *.
    pose proof (getRoutes_start_spec dest coords st) as Hst.
    destruct (TrafficMap.getRoutes_start dest coords st) as [[st' t] p].
    destruct Hst as [_ [_ [_ [Hsome Hstarts]]]]. cbn [fst snd].
    specialize (Hstarts Ho Ht).
    destruct p as [pending|]; [|congruence].
    split; [apply Hsome; discriminate|].
    rewrite length_app. cbn. lia.
  - intros w dest coords. apply getRoutes_in_phases.
Qed.

(** The user's position arrives, a fetch starts, the panel is toggled and
    a route selected before the answer comes: the state is settled all
    along and the flag is off at the end. *)
Lemma sessions_witness :
  TrafficMap.isLoading
    (fst (TrafficMap.session
            [TrafficMap.Position Sample.here;
             TrafficMap.Search "Library" None;
             TrafficMap.ToggleOptimization;
             TrafficMap.Answer 0 Sample.town;
             TrafficMap.Select Sample.town 1;
             TrafficMap.Answer 0 Sample.town]
            (TrafficMap.initial, []))) = false.
Proof.
  apply (proj1 (proj2 (proj1 sessions_stay_settled
           [TrafficMap.Position Sample.here;
            TrafficMap.Search "Library" None;
            TrafficMap.ToggleOptimization;
            TrafficMap.Answer 0 Sample.town;
            TrafficMap.Select Sample.town 1;
            TrafficMap.Answer 0 Sample.town]))).
  reflexivity.
Defined.

Lemma selectRoute_draws_old_index (w : World) (i : nat)
  (st : TrafficMap.State) :
  TrafficMap.routes st <> [] ->
  trace (TrafficMap.selectRoute w i st)
  = [Render (TrafficMap.routes st) (TrafficMap.selectedRouteIndex st)] /\
  TrafficMap.routes (final (TrafficMap.selectRoute w i st))
  = TrafficMap.routes st /\
  TrafficMap.selectedRouteIndex (final (TrafficMap.selectRoute w i st)) = i.
Proof.
  intros Hne.
  assert (Hlen : (0 <? List.length (TrafficMap.routes st))%nat = true).
  { destruct (TrafficMap.routes st); [congruence | reflexivity]. }
  run. rewrite Hlen. cbv beta iota zeta.
  destruct (map_throws w (TrafficMap.routes st)); repeat split.
Qed.

(** The drawing of a selection is one selection late: [selectRoute] hands
    the routes to the map with the selected index of the render it was
    created in.  So the first selection is drawn with the index of before,
    and a second selection [j] right after a selection [i] is drawn with
    [i] highlighted, while the state holds [j]. *)
Theorem selection_is_drawn_one_step_late (w : World) (i j : nat)
  (st : TrafficMap.State) :
  TrafficMap.routes st <> [] ->
  let first := TrafficMap.selectRoute w i st in
  let second := TrafficMap.selectRoute w j (final first) in
  trace first
  = [Render (TrafficMap.routes st) (TrafficMap.selectedRouteIndex st)] /\
  trace second = [Render (TrafficMap.routes st) i] /\
  TrafficMap.selectedRouteIndex (final second) = j.
Proof.
  intros Hne first second.
  destruct (selectRoute_draws_old_index w i st Hne) as [Ht [Hr Hi]].
  fold first in Ht, Hr, Hi.
  assert (Hne' : TrafficMap.routes (final first) <> []) by congruence.
  destruct (selectRoute_draws_old_index w j (final first) Hne')
    as [Ht' [_ Hj]].
  fold second in Ht', Hj.
  split; [exact Ht|]. split; [|exact Hj].
  rewrite Ht', Hr, Hi. reflexivity.
Qed.

Lemma selection_is_drawn_late_witness :
  let st := final (TrafficMap.getRoutes Sample.threeRoutes "Library"
                     (Some Sample.there) Sample.located) in
  trace (TrafficMap.selectRoute Sample.threeRoutes 2
           (final (TrafficMap.selectRoute Sample.threeRoutes 1 st)))
  = [Render (TrafficMap.routes st) 1].
Proof.
  intros st.
  refine (proj1 (proj2 (selection_is_drawn_one_step_late
                          Sample.threeRoutes 1 2 st _))).
  discriminate.
Defined.

(** An optimized route reaches the state only through a map that exists and
    draws it: then the candidate list is emptied and the panel closed, the
    selected index kept.  Without a map nothing is drawn and nothing
    changes; when the widget throws, the state is left as it was and the
    exception leaves the handler. *)
Theorem optimized_route_clears_candidates (mapPresent : bool) (w : World)
  (path : list LngLat) (names : list string) (st : TrafficMap.State) :
  let r := TrafficMap.handleOptimizedRoute mapPresent w path names st in
  let drawn := [TrafficMap.optimizedRoute path] in
  (mapPresent = false -> r = (Normal tt, st, [])) /\
  (mapPresent = true -> map_throws w drawn = true ->
   r = (Thrown, st, [Render drawn 0])) /\
  (mapPresent = true -> map_throws w drawn = false ->
   completion r = Normal tt /\
   trace r = [Render drawn 0] /\
   TrafficMap.routes (final r) = [] /\
   TrafficMap.showOptimization (final r) = false /\
   TrafficMap.selectedRouteIndex (final r)
   = TrafficMap.selectedRouteIndex st /\
   TrafficMap.userLocation (final r) = TrafficMap.userLocation st) /\
  derived (TrafficMap.optimizedRoute path).
Proof.
  cbv zeta. split; [|split; [|split]].
  - intros ->. reflexivity.
  - intros -> Ht. run_session. rewrite Ht. reflexivity.
  - intros -> Ht. run_session. rewrite Ht. repeat split.
  - split; reflexivity.
Qed.

Lemma optimized_route_witness :
  TrafficMap.routes
    (final (TrafficMap.handleOptimizedRoute true Sample.oneRoute
              [Sample.here; Sample.there] ["Your Location"; "Library"]
              (final (TrafficMap.getRoutes Sample.threeRoutes "Library"
                        (Some Sample.there) Sample.located)))) = [].
Proof.
  destruct (optimized_route_clears_candidates true Sample.oneRoute
              [Sample.here; Sample.there] ["Your Location"; "Library"]
              (final (TrafficMap.getRoutes Sample.threeRoutes "Library"
                        (Some Sample.there) Sample.located)))
    as [_ [_ [Hdrawn _]]].
  destruct Hdrawn as [_ [_ [Hroutes _]]]; [reflexivity..|exact Hroutes].
Defined.

(** ** Sessions of the search box *)

Lemma getRoutes_never_throws (w : World) (dest : string)
  (coords : option LngLat) (st : TrafficMap.State) :
  completion (TrafficMap.getRoutes w dest coords st) = Normal tt.
Proof.
  unfold TrafficMap.getRoutes, async_, completion.
  destruct (bind _ _ st) as [[c s] t]. reflexivity.
Qed.

Section SearchSessions.

Variable P : Type.
Variable mapboxToken : string.
Variable cb : string -> option LngLat -> Eff P unit.

Lemma perform_keeps_cursor (a : SearchInput.Action)
  (s : SearchInput.State) (p : P) :
  cursorInRange s ->
  cursorInRange (fst (final (SearchInput.perform mapboxToken cb a (s, p)))).
Proof.
  unfold cursorInRange. intros [Hlow Hhigh].
  destruct a; run_session;
    cbv [SearchInput.dropdownShown];
    repeat (break_match; cbv beta iota zeta);
    cbn [SearchInput.selectedIndex SearchInput.suggestions];
    cursor_arith;
    (split; [try lia | try (intros Hne; specialize (Hhigh Hne)); try lia;
                       try congruence]).
Qed.

Lemma session_keeps_cursor (actions : list SearchInput.Action)
  (s : SearchInput.State) (p : P) :
  cursorInRange s ->
  cursorInRange
    (fst (SearchInput.session mapboxToken cb actions (s, p))).
Proof.
  revert s p. induction actions as [|a rest IH]; intros s p Hs; [exact Hs|].
  cbn [SearchInput.session].
  pose proof (perform_keeps_cursor a s p Hs) as Hnext.
  destruct (final (SearchInput.perform mapboxToken cb a (s, p)))
    as [s' p'].
  now apply IH.
Qed.

Lemma perform_never_throws (a : SearchInput.Action)
  (s : SearchInput.State) (p : P) :
  (forall d c q, completion (cb d c q) <> Thrown) ->
  cursorInRange s ->
  completion (SearchInput.perform mapboxToken cb a (s, p)) <> Thrown.
Proof.
  unfold cursorInRange. intros Hcb [Hlow Hhigh].
  destruct a; run_session;
    cbv [SearchInput.dropdownShown];
    repeat (break_match; cbv beta iota zeta);
    try discriminate; subst.
  all: try (match goal with
            | H : cb ?d ?c ?q = (Thrown, _, _) |- _ =>
                exfalso; apply (Hcb d c q); rewrite H; reflexivity
            end).
  - exfalso. cursor_arith. apply nth_error_None in Heqo.
    assert (Hne : SearchInput.suggestions s <> []).
    { intros E. rewrite E in *. cbn in *. congruence. }
    specialize (Hhigh Hne). lia.
  - intros ->.
    apply (Hcb (Mapbox.place_name s0) (Some (Mapbox.center s0)) p).
    rewrite Heqp0. reflexivity.
Qed.

(** In every session of the search box that starts from its first render,
    the cursor is -1 or an index of the stored suggestion list (whenever
    that list is not empty), and no handler throws: in particular Enter
    never reads a suggestion that is not there.  The parent's callback is
    assumed not to throw, as is the case for [getRoutes]. *)
Theorem search_box_sessions_are_safe (actions : list SearchInput.Action)
  (p : P) :
  (forall d c q, completion (cb d c q) <> Thrown) ->
  let sp := SearchInput.session mapboxToken cb actions
              (SearchInput.initial, p) in
  cursorInRange (fst sp) /\
  forall a, completion (SearchInput.perform mapboxToken cb a sp) <> Thrown.
Proof.
  intros Hcb sp.
  assert (Hc : cursorInRange (fst sp)).
  { apply session_keeps_cursor. unfold cursorInRange. cbn.
    split; [lia | congruence]. }
  split; [exact Hc|].
  intros a. destruct sp as [s q]. now apply perform_never_throws.
Qed.

(** One press of an arrow key in the open dropdown. *)
Lemma afterKey_arrows (s : SearchInput.State) (p : P) :
  SearchInput.showSuggestions s = true ->
  SearchInput.suggestions s <> [] ->
  let n := Z.of_nat (List.length (SearchInput.suggestions s)) in
  let i := SearchInput.selectedIndex s in
  afterKey cb "ArrowDown" s p
  = {| SearchInput.query := SearchInput.query s;
       SearchInput.suggestions := SearchInput.suggestions s;
       SearchInput.showSuggestions := SearchInput.showSuggestions s;
       SearchInput.selectedIndex :=
         if (i <? n - 1)%Z then (i + 1)%Z else i |} /\
  afterKey cb "ArrowUp" s p
  = {| SearchInput.query := SearchInput.query s;
       SearchInput.suggestions := SearchInput.suggestions s;
       SearchInput.showSuggestions := SearchInput.showSuggestions s;
       SearchInput.selectedIndex :=
         if (i >? 0)%Z then (i - 1)%Z else (-1)%Z |}.
Proof.
  intros Hshow Hne n i.
  pose proof (handleKeyDown_open s Hshow Hne) as Hopen.
  split; key_step Hopen.
Qed.

(** In an open dropdown of [n] suggestions, [k] presses of ArrowDown move
    the cursor from [i] to [min (i + k) (n - 1)], and [k] presses of ArrowUp
    move it to [max (i - k) (-1)]; the presses change nothing else. *)
Theorem arrows_move_the_cursor_by_steps (k : nat) (s : SearchInput.State)
  (p : P) :
  SearchInput.showSuggestions s = true ->
  SearchInput.suggestions s <> [] ->
  let n := Z.of_nat (List.length (SearchInput.suggestions s)) in
  let i := SearchInput.selectedIndex s in
  (-1 <= i <= n - 1)%Z ->
  let down := Nat.iter k (fun s' => afterKey cb "ArrowDown" s' p) s in
  let up := Nat.iter k (fun s' => afterKey cb "ArrowUp" s' p) s in
  SearchInput.selectedIndex down = Z.min (i + Z.of_nat k) (n - 1) /\
  SearchInput.selectedIndex up = Z.max (i - Z.of_nat k) (-1) /\
  SearchInput.suggestions down = SearchInput.suggestions s /\
  SearchInput.suggestions up = SearchInput.suggestions s /\
  SearchInput.showSuggestions down = true /\
  SearchInput.showSuggestions up = true /\
  SearchInput.query down = SearchInput.query s /\
  SearchInput.query up = SearchInput.query s.
Proof.
  intros Hshow Hne n i Hi.
  pose proof (eq_refl : i = SearchInput.selectedIndex s) as Ei.
  pose proof (eq_refl
              : n = Z.of_nat (List.length (SearchInput.suggestions s))) as En.
  clearbody i n.
  induction k as [|k IH].
  - cbv zeta. cbn [Nat.iter nat_rect]. rewrite <- Ei.
    repeat split; auto; lia.
  - cbn zeta in *. rewrite !Nat.iter_succ.
    destruct IH as [Hd [Hu [Hsd [Hsu [Hwd [Hwu [Hqd Hqu]]]]]]].
    set (down := Nat.iter k (fun s' => afterKey cb "ArrowDown" s' p) s) in *.
    set (up := Nat.iter k (fun s' => afterKey cb "ArrowUp" s' p) s) in *.
    assert (Hned : SearchInput.suggestions down <> []) by congruence.
    assert (Hneu : SearchInput.suggestions up <> []) by congruence.
    destruct (afterKey_arrows down p Hwd Hned) as [Ed _].
    destruct (afterKey_arrows up p Hwu Hneu) as [_ Eu].
    rewrite Ed, Eu. cbn [SearchInput.selectedIndex SearchInput.suggestions
                         SearchInput.showSuggestions SearchInput.query].
    rewrite Hsd, Hd, Hu, <- En.
    repeat split; auto.
    + destruct (Z.ltb_spec (Z.min (i + Z.of_nat k) (n - 1)) (n - 1)); lia.
    + destruct (Z.gtb_spec (Z.max (i - Z.of_nat k) (-1)) 0); lia.
Qed.

End SearchSessions.

(** Typing, a lookup that returns two suggestions, ArrowDown and Enter:
    with [getRoutes] as the callback, Enter does not throw. *)
Lemma search_box_sessions_witness :
  completion
    (SearchInput.perform "pk.token"
       (TrafficMap.getRoutes Sample.threeRoutes) (SearchInput.KeyDown "Enter")
       (SearchInput.session "pk.token"
          (TrafficMap.getRoutes Sample.threeRoutes)
          [SearchInput.Typing "Libr";
           SearchInput.TimerFires
             (Sample.serving [Sample.library; Sample.libraryAve] []);
           SearchInput.KeyDown "ArrowDown"]
          (SearchInput.initial, Sample.located))) <> Thrown.
Proof.
  apply (search_box_sessions_are_safe TrafficMap.State "pk.token"
           (TrafficMap.getRoutes Sample.threeRoutes)).
  intros d c q. rewrite getRoutes_never_throws. discriminate.
Defined.

(** Three presses of ArrowDown in a dropdown of two suggestions stop on the
    second one. *)
Lemma arrows_witness :
  SearchInput.selectedIndex
    (Nat.iter 3
       (fun s' => afterKey (TrafficMap.getRoutes Sample.offline)
                    "ArrowDown" s' Sample.located)
       (Sample.browsing "Lib" (-1))) = 1%Z.
Proof.
  refine (proj1 (arrows_move_the_cursor_by_steps TrafficMap.State
                   (TrafficMap.getRoutes Sample.offline) 3
                   (Sample.browsing "Lib" (-1)) Sample.located _ _ _)).
  - reflexivity.
  - discriminate.
  - cbn. lia.
Defined.

(** ** What the search box shows *)

Lemma split_not_empty (sep : ascii) (s : string) : JS.split sep s <> [].
Proof.
  destruct s as [|c s]; cbn [JS.split]; [discriminate|].
  destruct (Ascii.eqb c sep); [discriminate|].
  destruct (JS.split sep s); discriminate.
Qed.

Lemma join_split (sep : ascii) (s : string) :
  JS.join (String sep EmptyString) (JS.split sep s) = s.
Proof.
  induction s as [|c s IH]; [reflexivity|].
  cbn [JS.split]. destruct (Ascii.eqb_spec c sep) as [->|Hne].
  - pose proof (split_not_empty sep s) as Hs.
    cbn [JS.join]. destruct (JS.split sep s) as [|piece pieces];
      [congruence|].
    rewrite IH. reflexivity.
  - pose proof (split_not_empty sep s) as Hs.
    destruct (JS.split sep s) as [|piece pieces]; [congruence|].
    cbn [JS.join] in *. destruct pieces; rewrite <- IH; reflexivity.
Qed.

Lemma split_pieces_have_no_separator (sep : ascii) (s : string) :
  Forall (fun piece => ~ In sep (list_ascii_of_string piece))
    (JS.split sep s).
Proof.
  induction s as [|c s IH]; cbn [JS.split].
  - constructor; [intros []|constructor].
  - destruct (Ascii.eqb_spec c sep) as [->|Hne].
    + constructor; [intros []|exact IH].
    + destruct (JS.split sep s) as [|piece pieces].
      * constructor; [|constructor].
        cbn. intros [H|[]]. congruence.
      * inversion IH as [|? ? Hp Hrest]; subst.
        constructor; [|exact Hrest].
        cbn. intros [H|H]; [congruence | contradiction].
Qed.

Lemma append_empty_r (s : string) : (s ++ "")%string = s.
Proof. induction s as [|c s IH]; cbn; congruence. Qed.

Lemma separator_in_append (sep : ascii) (a b : string) :
  In sep (list_ascii_of_string (a ++ String sep b)).
Proof. induction a as [|c a IH]; cbn; auto. Qed.

(** The two lines of a suggestion's button cut its place name at the first
    comma: the first line is the part before it and holds no comma, the
    second line is the trimmed rest, and first line, comma and (untrimmed)
    rest give the name back.  A name without a comma is the first line,
    whole, and the second line is empty. *)
Theorem display_lines_cut_at_first_comma (place_name : string) :
  let rest := tl (JS.split "," place_name) in
  JS.join "," (JS.split "," place_name) = place_name /\
  ~ In ","%char (list_ascii_of_string
                   (SearchInput.primaryLine place_name)) /\
  (place_name
   = (SearchInput.primaryLine place_name
      ++ match rest with
         | [] => ""
         | _ :: _ => "," ++ JS.join "," rest
         end)%string) /\
  SearchInput.secondaryLine place_name = JS.trim (JS.join "," rest) /\
  (~ In ","%char (list_ascii_of_string place_name) ->
   SearchInput.primaryLine place_name = place_name /\
   SearchInput.secondaryLine place_name = "").
Proof.
  cbv zeta. unfold SearchInput.primaryLine, SearchInput.secondaryLine.
  pose proof (join_split "," place_name) as Hjoin.
  pose proof (split_pieces_have_no_separator "," place_name) as Hno.
  pose proof (split_not_empty "," place_name) as Hne.
  destruct (JS.split "," place_name) as [|piece pieces] eqn:Hs;
    [congruence|].
  cbn [hd tl]. apply Forall_inv in Hno.
  assert (Hcut : place_name
                 = (piece ++ match pieces with
                             | [] => ""
                             | _ :: _ => "," ++ JS.join "," pieces
                             end)%string).
  { rewrite <- Hjoin at 1. cbn [JS.join]. destruct pieces.
    - now rewrite append_empty_r.
    - reflexivity. }
  repeat split; auto.
  - destruct pieces as [|q pieces].
    + rewrite Hcut. now rewrite append_empty_r.
    + exfalso. apply H. rewrite Hcut. apply separator_in_append.
  - destruct pieces as [|q pieces]; [reflexivity|].
    exfalso. apply H. rewrite Hcut. apply separator_in_append.
Qed.

Lemma display_lines_witness :
  SearchInput.primaryLine "Library" = "Library" /\
  SearchInput.secondaryLine "Library" = "".
Proof.
  apply (proj2 (proj2 (proj2 (proj2
           (display_lines_cut_at_first_comma "Library"))))).
  cbn. intuition discriminate.
Defined.

Lemma includes_without_place (placeTypes : list string) (x : string) :
  x <> "place" ->
  JS.includes (filter (fun t => negb (t =? "place")) placeTypes) x
  = JS.includes placeTypes x.
Proof.
  intros Hx. induction placeTypes as [|t l IH]; [reflexivity|].
  cbn [filter JS.includes].
  destruct (String.eqb_spec t "place") as [->|Ht]; cbn [negb].
  - destruct (String.eqb_spec "place" x); [congruence | exact IH].
  - cbn [JS.includes]. rewrite IH. reflexivity.
Qed.

(** The icon of a suggestion goes by the first of "poi", "address",
    "neighborhood", "locality" that its place types hold: a house for an
    address that is no point of interest, houses for a neighbourhood that is
    neither, a city for a locality that is none of the three, and a pin in
    every other case.  The type "place" has no influence. *)
Theorem place_icon_goes_by_priority (placeTypes : list string) :
  let icon := SearchInput.getPlaceIcon placeTypes in
  (icon = SearchInput.House <->
     ~ In "poi" placeTypes /\ In "address" placeTypes) /\
  (icon = SearchInput.Houses <->
     ~ In "poi" placeTypes /\ ~ In "address" placeTypes /\
     In "neighborhood" placeTypes) /\
  (icon = SearchInput.City <->
     ~ In "poi" placeTypes /\ ~ In "address" placeTypes /\
     ~ In "neighborhood" placeTypes /\ In "locality" placeTypes) /\
  (icon = SearchInput.Pin <->
     In "poi" placeTypes \/
     (~ In "address" placeTypes /\ ~ In "neighborhood" placeTypes /\
      ~ In "locality" placeTypes)) /\
  SearchInput.getPlaceIcon
    (filter (fun t => negb (t =? "place")) placeTypes) = icon.
Proof.
  cbv zeta. unfold SearchInput.getPlaceIcon.
  rewrite !includes_without_place by discriminate.
  destruct (JS.includes placeTypes "poi") eqn:Hp;
    [apply includes_In in Hp | apply includes_not_In in Hp].
  { repeat split; intros; try discriminate; try reflexivity; tauto. }
  destruct (JS.includes placeTypes "address") eqn:Ha;
    [apply includes_In in Ha | apply includes_not_In in Ha].
  { repeat split; intros; try discriminate; try reflexivity; tauto. }
  destruct (JS.includes placeTypes "neighborhood") eqn:Hn;
    [apply includes_In in Hn | apply includes_not_In in Hn].
  { repeat split; intros; try discriminate; try reflexivity; tauto. }
  destruct (JS.includes placeTypes "locality") eqn:Hl;
    [apply includes_In in Hl | apply includes_not_In in Hl].
  { repeat split; intros; try discriminate; try reflexivity; tauto. }
  destruct (JS.includes placeTypes "place");
    repeat split; intros; try discriminate; try reflexivity; try tauto;
    destruct (JS.includes _ "place"); reflexivity.
Qed.

Lemma place_icon_witness :
  SearchInput.getPlaceIcon ["place"; "address"] = SearchInput.House.
Proof.
  apply (proj1 (place_icon_goes_by_priority ["place"; "address"])).
  cbn. intuition discriminate.
Defined.

(** ** Lookups that fail, and what follows a selection *)

Lemma getRoutes_keeps_userLocation (w : World) (dest : string)
  (coords : option LngLat) (st : TrafficMap.State) :
  TrafficMap.userLocation (final (TrafficMap.getRoutes w dest coords st))
  = TrafficMap.userLocation st.
Proof.
  run_cases; try reflexivity; cbn [TrafficMap.userLocation]; congruence.
Qed.

Section Lookups.

Variable P : Type.
Variable w : World.
Variable mapboxToken : string.
Variable cb : string -> option LngLat -> Eff P unit.

(** An autocomplete lookup never throws and never touches the parent.
    Without a token, or for a blank query, it sends nothing.  When the
    request fails it leaves the search box as it was (the suggestions of
    before stay) and shows no notification, it only logs the error; when
    the answer has no feature list it leaves the search box as it was as
    well. *)
Theorem failed_lookup_keeps_suggestions (searchQuery : string)
  (s : SearchInput.State) (p : P) :
  let r := SearchInput.searchSuggestions w mapboxToken searchQuery (s, p) in
  let request := Geocoding searchQuery 5 SearchInput.autocompleteTypes in
  completion r = Normal tt /\
  snd (final r) = p /\
  toasts (trace r) = [] /\
  (JS.truthy mapboxToken = false \/ JS.truthy (JS.trim searchQuery) = false ->
   r = (Normal tt, (s, p), [])) /\
  (JS.truthy mapboxToken = true -> JS.truthy (JS.trim searchQuery) = true ->
   (fails w request = true ->
    final r = (s, p) /\ trace r = [Fetch request; ConsoleError]) /\
   (forall data,
      geocoding w searchQuery 5 SearchInput.autocompleteTypes = Body data ->
      Mapbox.features data = None ->
      final r = (s, p) /\ trace r = [Fetch request])).
Proof.
  cbv zeta. split; [|split; [|split; [|split]]].
  - unfold SearchInput.searchSuggestions, async_, completion.
    destruct (_ (s, p)) as [[c sp] t]. reflexivity.
  - run_cases; reflexivity.
  - run_cases; reflexivity.
  - intros [Ht|Hq]; run; rewrite ?Ht, ?Hq;
      [|destruct (JS.truthy mapboxToken)]; reflexivity.
  - intros Ht Hq. run. rewrite Ht, Hq. cbv beta iota zeta delta [negb orb].
    split.
    + cbn [fails]. intros Hfail.
      destruct (geocoding w searchQuery 5 SearchInput.autocompleteTypes);
        try discriminate; destruct s; split; reflexivity.
    + intros data Hbody Hnone. rewrite Hbody. cbv beta iota zeta.
      rewrite Hnone. destruct s; split; reflexivity.
Qed.

(** The query text that [selectSuggestion] stores makes the debounce timer
    run again: when it fires, the selected place name (if longer than two
    characters and not blank, with a token) is looked up like typed text,
    and the answer's features are stored and shown, although the selection
    had just emptied and closed the dropdown. *)
Theorem selection_is_looked_up_again (sug : SearchInput.Suggestion)
  (s : SearchInput.State) (p : P) (data : Mapbox.GeocodeData)
  (features : list SearchInput.Suggestion) :
  JS.truthy mapboxToken = true ->
  (2 < String.length (Mapbox.place_name sug))%nat ->
  JS.truthy (JS.trim (Mapbox.place_name sug)) = true ->
  geocoding w (Mapbox.place_name sug) 5 SearchInput.autocompleteTypes
  = Body data ->
  Mapbox.features data = Some features ->
  let selected := final (SearchInput.selectSuggestion cb sug (s, p)) in
  let r := SearchInput.debouncedSearch w mapboxToken selected in
  SearchInput.showSuggestions (fst selected) = false /\
  SearchInput.suggestions (fst selected) = [] /\
  trace r
  = [Fetch (Geocoding (Mapbox.place_name sug) 5
              SearchInput.autocompleteTypes)] /\
  SearchInput.suggestions (fst (final r)) = features /\
  SearchInput.showSuggestions (fst (final r)) = true /\
  (features <> [] -> SearchInput.dropdownShown (fst (final r)) = true).
Proof.
  intros Ht Hlen Hq Hbody Hf selected r.
  subst r selected. rewrite selectSuggestion_eq. cbv zeta.
  cbn [final fst snd].
  apply Nat.ltb_lt in Hlen.
  run. cbn [SearchInput.query]. rewrite Hlen, Ht, Hq, Hbody.
  cbv beta iota zeta delta [negb orb]. rewrite Hf. cbv beta iota zeta.
  repeat split.
  intros Hne. unfold SearchInput.dropdownShown.
  cbn [SearchInput.showSuggestions SearchInput.suggestions andb].
  destruct features; [congruence | reflexivity].
Qed.

End Lookups.

Lemma failed_lookup_witness :
  final (SearchInput.searchSuggestions Sample.offline "pk.token" "Libr"
           (Sample.browsing "Libr" 0, Sample.located))
  = (Sample.browsing "Libr" 0, Sample.located).
Proof.
  destruct (failed_lookup_keeps_suggestions TrafficMap.State Sample.offline
              "pk.token" "Libr" (Sample.browsing "Libr" 0) Sample.located)
    as [_ [_ [_ [_ Hfail]]]].
  destruct Hfail as [Hfail _]; [reflexivity..|].
  destruct Hfail as [Hfinal _]; [reflexivity | exact Hfinal].
Defined.

Lemma selection_is_looked_up_again_witness :
  let selected := final (SearchInput.selectSuggestion
                           (TrafficMap.getRoutes Sample.threeRoutes)
                           Sample.library
                           (Sample.browsing "Libr" 0, Sample.located)) in
  SearchInput.dropdownShown
    (fst (final (SearchInput.debouncedSearch
                   (Sample.serving [Sample.library; Sample.libraryAve] [])
                   "pk.token" selected))) = true.
Proof.
  intros selected.
  refine (proj2 (proj2 (proj2 (proj2 (proj2
    (selection_is_looked_up_again TrafficMap.State
       (Sample.serving [Sample.library; Sample.libraryAve] [])
       "pk.token" (TrafficMap.getRoutes Sample.threeRoutes)
       Sample.library (Sample.browsing "Libr" 0) Sample.located
       {| Mapbox.features := Some [Sample.library; Sample.libraryAve] |}
       [Sample.library; Sample.libraryAve] _ _ _ _ _))))) _);
    try reflexivity.
  - cbn. lia.
  - discriminate.
Defined.

(** The coordinates of a selected suggestion are not kept: Enter pressed
    right after a selection submits the place name as typed text, so with a
    user position known and a name that is not blank the route fetcher
    starts with a geocode request for the trimmed name. *)
Theorem enter_after_selection_geocodes (w : World)
  (sug : SearchInput.Suggestion) (s : SearchInput.State)
  (p : TrafficMap.State) (origin : LngLat) :
  TrafficMap.userLocation p = Some origin ->
  JS.truthy (JS.trim (Mapbox.place_name sug)) = true ->
  let fetcher := TrafficMap.getRoutes w in
  let selected := final (SearchInput.selectSuggestion fetcher sug (s, p)) in
  let r := SearchInput.handleKeyDown fetcher "Enter" selected in
  geocodeCalls (trace (SearchInput.selectSuggestion fetcher sug (s, p)))
  = 0%nat /\
  geocodeCalls (trace r) = 1%nat /\
  hd_error (requests (trace r))
  = Some (Geocoding (JS.trim (Mapbox.place_name sug)) 1 []).
Proof.
  intros Ho Hq fetcher selected r.
  split.
  { rewrite selectSuggestion_eq. cbn [trace snd].
    apply getRoutes_with_coordinates. }
  set (s' := {| SearchInput.query := Mapbox.place_name sug;
                SearchInput.suggestions := [];
                SearchInput.showSuggestions := false;
                SearchInput.selectedIndex := -1 |}).
  set (p' := final (fetcher (Mapbox.place_name sug)
                      (Some (Mapbox.center sug)) p)).
  assert (Hsel : selected = (s', p')).
  { subst selected. rewrite selectSuggestion_eq. reflexivity. }
  subst r. rewrite Hsel. clear Hsel selected.
  assert (Ho' : TrafficMap.userLocation p' = Some origin).
  { subst p' fetcher.
    rewrite <- Ho. apply getRoutes_keeps_userLocation. }
  destruct (handleKeyDown_Enter_free_text _ fetcher s' p') as [_ Hr].
  { left. reflexivity. }
  assert (Hq' : JS.truthy (JS.trim (SearchInput.query s')) = true)
    by exact Hq.
  rewrite (handleSearch_eq _ fetcher s' p' Hq') in Hr.
  cbn [trace snd SearchInput.query s'] in Hr.
  destruct (getRoutes_text_geocodes_first w
              (JS.trim (Mapbox.place_name sug)) p' origin Ho' Hq)
    as [Hone Hfirst].
  rewrite geocodeCalls_requests, Hr, <- geocodeCalls_requests.
  split; [exact Hone | exact Hfirst].
Qed.

Lemma enter_after_selection_witness :
  let fetcher := TrafficMap.getRoutes Sample.threeRoutes in
  geocodeCalls
    (trace (SearchInput.handleKeyDown fetcher "Enter"
              (final (SearchInput.selectSuggestion fetcher Sample.library
                        (Sample.browsing "Libr" 0, Sample.located)))))
  = 1%nat.
Proof.
  intros fetcher.
  refine (proj1 (proj2 (enter_after_selection_geocodes Sample.threeRoutes
                          Sample.library (Sample.browsing "Libr" 0)
                          Sample.located Sample.here _ _)));
    reflexivity.
Defined.

(** ** The optimization request and its answers *)

Lemma nth_error_map_from {A B : Type} (f : A -> nat -> B) (l : list A)
  (i k : nat) :
  nth_error (JS.map_from i f l) k
  = option_map (fun x => f x (i + k)) (nth_error l k).
Proof.
  revert i k. induction l as [|x l IH]; intros i k.
  - destruct k; reflexivity.
  - destruct k as [|k]; cbn [JS.map_from nth_error option_map].
    + now rewrite Nat.add_0_r.
    + rewrite IH. now rewrite Nat.add_succ_comm.
Qed.

Lemma length_map_from {A B : Type} (f : A -> nat -> B) (l : list A)
  (i : nat) :
  List.length (JS.map_from i f l) = List.length l.
Proof.
  revert i. induction l as [|x l IH]; intros i; cbn; [|rewrite IH];
    reflexivity.
Qed.

Section OptimizerRuns.

Variable P : Type.
Variable cb : list LngLat -> list string -> Eff P unit.

(** The run of [optimizeRoute] on an answer that carries a trip with its
    waypoints: the request, the call of the parent's handler with the
    trip's path and the names, what the handler does, and then "Route
    Optimized", or "Optimization failed" when the handler threw. *)
Lemma optimizeRoute_answered (w : World) (origin : LngLat)
  (st : OptimizationPanel.State) (p : P) (data : Mapbox.TripsData)
  (trip : Mapbox.Trip) (others : list Mapbox.Trip)
  (order : list Mapbox.TripWaypoint) :
  (2 <= List.length (OptimizationPanel.waypoints st))%nat ->
  optimized_trips w
    (origin :: map OptimizationPanel.coordinates
                 (OptimizationPanel.waypoints st)) = Body data ->
  Mapbox.trips data = Some (trip :: others) ->
  Mapbox.waypoints trip = Some order ->
  let path := Mapbox.coordinates (Mapbox.trip_geometry trip) in
  let call := cb path (stopNames st order) p in
  let r := OptimizationPanel.optimizeRoute cb w (Some origin) (st, p) in
  trace r
  = Fetch (OptimizedTrips
             (origin :: map OptimizationPanel.coordinates
                          (OptimizationPanel.waypoints st)))
    :: OptimizedRoute path (stopNames st order)
    :: trace call
       ++ [Notify (match completion call with
                   | Thrown => OptimizationFailed
                   | _ => RouteOptimized (Mapbox.trip_duration trip)
                   end)] /\
  snd (final r) = final call /\
  OptimizationPanel.isOptimizing (fst (final r)) = false.
Proof.
  intros Hlen Hbody Htrips Horder.
  apply Nat.ltb_ge in Hlen. cbv zeta. unfold stopNames.
  run_open. rewrite Hlen, Hbody. cbv beta iota zeta.
  rewrite Htrips. cbv beta iota zeta. rewrite Horder.
  cbv beta iota zeta.
  destruct (cb _ _ p) as [[c q] t]. destruct c; repeat split;
    cbn [app]; rewrite ?app_nil_r, <- ?app_assoc; reflexivity.
Qed.

(** Whatever happens, [optimizeRoute] leaves the waypoint list and the
    input text as they were and does not throw.  When it runs (a user
    position and two waypoints or more) its first request is for the chain
    made of the user position followed by the waypoints' coordinates in
    list order, it is its only request (the other requests of the run, if
    any, are those of the parent's handler; a handler that sends nothing
    leaves it the only request of the run), and it ends with the busy flag
    off. *)
Theorem optimizeRoute_sends_origin_then_waypoints (w : World)
  (userLocation : option LngLat) (st : OptimizationPanel.State) (p : P) :
  let r := OptimizationPanel.optimizeRoute cb w userLocation (st, p) in
  completion r = Normal tt /\
  OptimizationPanel.waypoints (fst (final r))
  = OptimizationPanel.waypoints st /\
  OptimizationPanel.newWaypoint (fst (final r))
  = OptimizationPanel.newWaypoint st /\
  (forall origin,
     userLocation = Some origin ->
     (2 <= List.length (OptimizationPanel.waypoints st))%nat ->
     let chain := origin :: map OptimizationPanel.coordinates
                              (OptimizationPanel.waypoints st) in
     hd_error (requests (trace r)) = Some (OptimizedTrips chain) /\
     (requests (trace r) = [OptimizedTrips chain] \/
      exists path names,
        requests (trace r)
        = OptimizedTrips chain :: requests (trace (cb path names p))) /\
     ((forall path names q, requests (trace (cb path names q)) = []) ->
      requests (trace r) = [OptimizedTrips chain]) /\
     List.length chain = S (List.length (OptimizationPanel.waypoints st)) /\
     OptimizationPanel.isOptimizing (fst (final r)) = false).
Proof.
  cbv zeta. split; [|split; [|split]].
  - unfold OptimizationPanel.optimizeRoute, async_, completion.
    destruct (bind _ _ (st, p)) as [[c s] t]. reflexivity.
  - run_cases; try reflexivity;
      destruct (cb _ _ p) as [[cc qq] tt']; destruct cc; reflexivity.
  - run_cases; try reflexivity;
      destruct (cb _ _ p) as [[cc qq] tt']; destruct cc; reflexivity.
  - intros origin -> Hlen. apply Nat.ltb_ge in Hlen.
    split; [|split; [|split; [|split]]].
    + run. rewrite Hlen. cbv beta iota zeta.
      repeat (break_match; cbv beta iota zeta); try reflexivity;
        destruct (cb _ _ p) as [[cc qq] tt']; destruct cc; reflexivity.
    + run_open. rewrite Hlen. cbv beta iota zeta.
      repeat (break_match; cbv beta iota zeta; cbn [app]);
        try (left; reflexivity).
      right.
      match goal with
      | |- context [cb ?a ?b p] =>
          exists a, b; destruct (cb a b p) as [[cc qq] tt']
      end.
      cbn [trace snd].
      destruct cc; cbn [app requests]; rewrite ?requests_app;
        cbn [requests]; rewrite ?app_nil_r; reflexivity.
    + intros Hquiet. run_open. rewrite Hlen. cbv beta iota zeta.
      repeat (break_match; cbv beta iota zeta; cbn [app]);
        try reflexivity.
      match goal with
      | |- context [cb ?a ?b p] =>
          pose proof (Hquiet a b p) as Hq;
          destruct (cb a b p) as [[cc qq] tt']
      end.
      cbn [trace snd] in Hq.
      destruct cc; cbn [app requests]; rewrite ?requests_app, Hq;
        reflexivity.
    + cbn [List.length]. now rewrite length_map.
    + run. rewrite Hlen. cbv beta iota zeta.
      repeat (break_match; cbv beta iota zeta); try reflexivity;
        destruct (cb _ _ p) as [[cc qq] tt']; destruct cc; reflexivity.
Qed.

(** On an answer that carries a trip with its waypoints, the parent's
    handler is called with the trip's path and one name per waypoint of the
    answer, in their order: the first is "Your Location"; a later one, at
    position [index] with waypoint index [k], is the name of the [k]-th
    waypoint of the panel when there is one and its name is not empty, and
    "Stop [index]" otherwise ([k] below 1, [k] past the end of the list, or
    an empty name).  The run is the request, the call, what the handler
    does, and then "Route Optimized", or "Optimization failed" when the
    handler threw; the parent's state is the one the handler left. *)
Theorem optimized_names_follow_the_answer (w : World) (origin : LngLat)
  (st : OptimizationPanel.State) (p : P) (data : Mapbox.TripsData)
  (trip : Mapbox.Trip) (others : list Mapbox.Trip)
  (order : list Mapbox.TripWaypoint) :
  (2 <= List.length (OptimizationPanel.waypoints st))%nat ->
  optimized_trips w
    (origin :: map OptimizationPanel.coordinates
                 (OptimizationPanel.waypoints st)) = Body data ->
  Mapbox.trips data = Some (trip :: others) ->
  Mapbox.waypoints trip = Some order ->
  let names := stopNames st order in
  let path := Mapbox.coordinates (Mapbox.trip_geometry trip) in
  let call := cb path names p in
  let r := OptimizationPanel.optimizeRoute cb w (Some origin) (st, p) in
  trace r
  = Fetch (OptimizedTrips
             (origin :: map OptimizationPanel.coordinates
                          (OptimizationPanel.waypoints st)))
    :: OptimizedRoute path names
    :: trace call
       ++ [Notify (match completion call with
                   | Thrown => OptimizationFailed
                   | _ => RouteOptimized (Mapbox.trip_duration trip)
                   end)] /\
  snd (final r) = final call /\
  List.length names = List.length order /\
  (order <> [] -> hd_error names = Some "Your Location") /\
  (forall index wp stop,
     (0 < index)%nat ->
     nth_error order index = Some wp ->
     (1 <= Mapbox.waypoint_index wp)%Z ->
     nth_error (OptimizationPanel.waypoints st)
       (Z.to_nat (Mapbox.waypoint_index wp - 1)) = Some stop ->
     OptimizationPanel.name stop <> "" ->
     nth_error names index = Some (OptimizationPanel.name stop)) /\
  (forall index wp,
     (0 < index)%nat ->
     nth_error order index = Some wp ->
     (Mapbox.waypoint_index wp < 1)%Z \/
     (Z.of_nat (List.length (OptimizationPanel.waypoints st))
      < Mapbox.waypoint_index wp)%Z \/
     (exists stop,
        nth_error (OptimizationPanel.waypoints st)
          (Z.to_nat (Mapbox.waypoint_index wp - 1)) = Some stop /\
        OptimizationPanel.name stop = "") ->
     nth_error names index = Some ("Stop " ++ JS.toString index)%string).
Proof.
  intros Hlen Hbody Htrips Horder names path call r.
  destruct (optimizeRoute_answered w origin st p data trip others order
              Hlen Hbody Htrips Horder) as [Htrace [Hparent _]].
  split; [exact Htrace|]. split; [exact Hparent|].
  subst names. unfold stopNames, JS.mapi.
  split; [apply length_map_from|].
  split; [intros Hne; destruct order; [congruence | reflexivity]|].
  split.
  - intros index wp stop Hpos Hwp Hk Hstop Hname.
    rewrite nth_error_map_from, Hwp. cbn [option_map Nat.add].
    destruct index as [|index]; [lia|]. cbn [Nat.eqb].
    unfold OptimizationPanel.stopName.
    destruct (Z.ltb_spec (Mapbox.waypoint_index wp - 1) 0); [lia|].
    rewrite Hstop.
    destruct (OptimizationPanel.name stop); [congruence | reflexivity].
  - intros index wp Hpos Hwp Hcase.
    rewrite nth_error_map_from, Hwp. cbn [option_map Nat.add].
    destruct index as [|index]; [lia|]. cbn [Nat.eqb].
    unfold OptimizationPanel.stopName.
    destruct (Z.ltb_spec (Mapbox.waypoint_index wp - 1) 0) as [Hneg|Hpos'];
      [reflexivity|].
    destruct Hcase as [Hlow|[Hhigh|[stop [Hstop Hempty]]]].
    + lia.
    + assert (Hnone : nth_error (OptimizationPanel.waypoints st)
                        (Z.to_nat (Mapbox.waypoint_index wp - 1)) = None)
        by (apply nth_error_None; lia).
      rewrite Hnone. reflexivity.
    + rewrite Hstop, Hempty. reflexivity.
Qed.

(** "Optimization failed" is shown, once, in three cases: the request
    fails, the trip comes without its waypoints, or the parent's handler
    throws.  In the first two the parent is not called and its state is as
    it was; in the third the route was handed over before the failure is
    shown, and "Route Optimized" is not shown.  An answer without trips
    shows nothing at all and does not call the parent.  The busy flag ends
    off in every case. *)
Theorem optimization_fails_before_or_in_the_handler (w : World)
  (origin : LngLat) (st : OptimizationPanel.State) (p : P) :
  (2 <= List.length (OptimizationPanel.waypoints st))%nat ->
  let chain := origin :: map OptimizationPanel.coordinates
                           (OptimizationPanel.waypoints st) in
  let r := OptimizationPanel.optimizeRoute cb w (Some origin) (st, p) in
  (fails w (OptimizedTrips chain) = true ->
   trace r = [Fetch (OptimizedTrips chain); Notify OptimizationFailed] /\
   snd (final r) = p) /\
  (forall data,
     optimized_trips w chain = Body data ->
     Mapbox.trips data = None \/ Mapbox.trips data = Some [] ->
     trace r = [Fetch (OptimizedTrips chain)] /\ snd (final r) = p) /\
  (forall data trip others,
     optimized_trips w chain = Body data ->
     Mapbox.trips data = Some (trip :: others) ->
     Mapbox.waypoints trip = None ->
     trace r = [Fetch (OptimizedTrips chain); Notify OptimizationFailed] /\
     snd (final r) = p) /\
  (forall data trip others order,
     optimized_trips w chain = Body data ->
     Mapbox.trips data = Some (trip :: others) ->
     Mapbox.waypoints trip = Some order ->
     let path := Mapbox.coordinates (Mapbox.trip_geometry trip) in
     let call := cb path (stopNames st order) p in
     completion call = Thrown ->
     trace r
     = Fetch (OptimizedTrips chain)
       :: OptimizedRoute path (stopNames st order)
       :: trace call ++ [Notify OptimizationFailed] /\
     toasts (trace r) = toasts (trace call) ++ [OptimizationFailed] /\
     snd (final r) = final call) /\
  OptimizationPanel.isOptimizing (fst (final r)) = false.
Proof.
  intros Hlen chain r. subst r chain.
  pose proof Hlen as Hlen'. apply Nat.ltb_ge in Hlen'.
  split; [|split; [|split; [|split]]].
  - cbn [fails]. intros Hfail. run. rewrite Hlen'. cbv beta iota zeta.
    destruct (optimized_trips w _); try discriminate; split; reflexivity.
  - intros data Hbody Htrips. run. rewrite Hlen', Hbody.
    cbv beta iota zeta.
    destruct Htrips as [Ht|Ht]; rewrite Ht; split; reflexivity.
  - intros data trip others Hbody Htrips Hnone.
    run. rewrite Hlen', Hbody. cbv beta iota zeta.
    rewrite Htrips. cbv beta iota zeta. rewrite Hnone. split; reflexivity.
  - intros data trip others order Hbody Htrips Horder path call Hthrown.
    destruct (optimizeRoute_answered w origin st p data trip others order
                Hlen Hbody Htrips Horder) as [Htrace [Hparent _]].
    cbv zeta in Htrace, Hparent. fold path call in Htrace, Hparent.
    rewrite Hthrown in Htrace.
    split; [exact Htrace|]. split; [|exact Hparent].
    rewrite Htrace. cbn [toasts]. rewrite toasts_app. reflexivity.
  - run. rewrite Hlen'. cbv beta iota zeta.
    repeat (break_match; cbv beta iota zeta); try reflexivity;
      destruct (cb _ _ p) as [[cc qq] tt']; destruct cc; reflexivity.
Qed.

End OptimizerRuns.

Lemma optimizeRoute_request_witness :
  requests (trace (OptimizationPanel.optimizeRoute
                     (TrafficMap.handleOptimizedRoute true Sample.offline)
                     Sample.offline (Some Sample.here)
                     (Sample.twoStops, Sample.located)))
  = [OptimizedTrips [Sample.here; Sample.there; Sample.elsewhere]].
Proof.
  destruct (optimizeRoute_sends_origin_then_waypoints TrafficMap.State
              (TrafficMap.handleOptimizedRoute true Sample.offline)
              Sample.offline (Some Sample.here) Sample.twoStops
              Sample.located) as [_ [_ [_ Hrun]]].
  destruct (Hrun Sample.here) as [_ [_ [Hquiet _]]].
  - reflexivity.
  - cbn. lia.
  - apply Hquiet. intros path names q.
    unfold TrafficMap.handleOptimizedRoute. reflexivity.
Defined.

(** Two stops, the second without a name, and the answer's waypoint
    indices 0, 2, 1: the third name is that of the first stop, the second
    is "Stop 1", and the map component ends without candidate routes. *)
Lemma optimized_names_witness :
  let r := OptimizationPanel.optimizeRoute
             (TrafficMap.handleOptimizedRoute true
                (Sample.optimizing [0; 2; 1]%Z))
             (Sample.optimizing [0; 2; 1]%Z) (Some Sample.here)
             (Sample.twoStops, Sample.located) in
  nth_error (toasts (trace r)) 0 = Some (RouteOptimized 1200%float) /\
  nth_error
    (stopNames Sample.twoStops
       [{| Mapbox.waypoint_index := 0 |};
        {| Mapbox.waypoint_index := 2 |};
        {| Mapbox.waypoint_index := 1 |}]) 2
  = Some "Library, Springfield".
Proof.
  intros r.
  destruct (optimized_names_follow_the_answer TrafficMap.State
              (TrafficMap.handleOptimizedRoute true
                 (Sample.optimizing [0; 2; 1]%Z))
              (Sample.optimizing [0; 2; 1]%Z) Sample.here Sample.twoStops
              Sample.located
              {| Mapbox.trips := Some [Sample.tripOf [0; 2; 1]%Z] |}
              (Sample.tripOf [0; 2; 1]%Z) []
              [{| Mapbox.waypoint_index := 0 |};
               {| Mapbox.waypoint_index := 2 |};
               {| Mapbox.waypoint_index := 1 |}])
    as [Htrace [_ [_ [_ [Hnamed _]]]]]; try reflexivity.
  split.
  - subst r. rewrite Htrace. reflexivity.
  - apply (Hnamed 2%nat {| Mapbox.waypoint_index := 1 |}
             (Sample.stop "1700000000000" "Library, Springfield"
                Sample.there)); try reflexivity; try lia;
      try (cbn; lia); discriminate.
Defined.

(** The map widget throws while it draws the optimized route: the route
    was handed over, "Optimization failed" is shown and "Route Optimized"
    is not. *)
Lemma optimization_fails_in_the_handler_witness :
  toasts
    (trace (OptimizationPanel.optimizeRoute
              (TrafficMap.handleOptimizedRoute true
                 (Sample.brokenMap (Sample.optimizing [0; 2; 1]%Z)))
              (Sample.optimizing [0; 2; 1]%Z) (Some Sample.here)
              (Sample.twoStops, Sample.located)))
  = [OptimizationFailed].
Proof.
  destruct (optimization_fails_before_or_in_the_handler TrafficMap.State
              (TrafficMap.handleOptimizedRoute true
                 (Sample.brokenMap (Sample.optimizing [0; 2; 1]%Z)))
              (Sample.optimizing [0; 2; 1]%Z) Sample.here Sample.twoStops
              Sample.located) as [_ [_ [_ [Hthrows _]]]].
  - cbn. lia.
  - destruct (Hthrows {| Mapbox.trips := Some [Sample.tripOf [0; 2; 1]%Z] |}
                (Sample.tripOf [0; 2; 1]%Z) []
                [{| Mapbox.waypoint_index := 0 |};
                 {| Mapbox.waypoint_index := 2 |};
                 {| Mapbox.waypoint_index := 1 |}]
                eq_refl eq_refl eq_refl eq_refl)
      as [_ [Htoasts _]].
    rewrite Htoasts. reflexivity.
Defined.

(** ** The waypoint list *)

(** [addWaypoint] only ever appends: the list of before is the beginning of
    the list of after, with at most one waypoint more.  It sends at most one
    request, a geocode request for the text with [limit=1].  A blank text
    or a missing token sends nothing.  When the answer has a feature, the
    new last waypoint has the first feature's name and coordinates and the
    decimal numeral of the time as its id, and the input text is cleared.
    When the answer has no feature or the request fails, the state is left
    as it was and exactly one notification is shown. *)
Theorem addWaypoint_appends_at_most_one (w : World) (now : N)
  (mapboxToken placeName : string) (st : OptimizationPanel.State) :
  let r := OptimizationPanel.addWaypoint w now mapboxToken placeName st in
  let request := Geocoding placeName 1 [] in
  (exists extra,
     OptimizationPanel.waypoints (OptimizationPanel.panel r)
     = OptimizationPanel.waypoints st ++ extra /\
     (List.length extra <= 1)%nat /\
     (extra = [] -> OptimizationPanel.panel r = st)) /\
  (OptimizationPanel.sent r = [] \/ OptimizationPanel.sent r = [request]) /\
  OptimizationPanel.isOptimizing (OptimizationPanel.panel r)
  = OptimizationPanel.isOptimizing st /\
  (JS.truthy (JS.trim placeName) = false \/ JS.truthy mapboxToken = false ->
   r = {| OptimizationPanel.panel := st;
          OptimizationPanel.sent := [];
          OptimizationPanel.shown := [] |}) /\
  (JS.truthy (JS.trim placeName) = true -> JS.truthy mapboxToken = true ->
   (forall data feature rest,
      geocoding w placeName 1 [] = Body data ->
      Mapbox.features data = Some (feature :: rest) ->
      OptimizationPanel.waypoints (OptimizationPanel.panel r)
      = OptimizationPanel.waypoints st
        ++ [{| OptimizationPanel.id := OptimizationPanel.timestamp now;
               OptimizationPanel.name := Mapbox.place_name feature;
               OptimizationPanel.coordinates := Mapbox.center feature |}] /\
      OptimizationPanel.newWaypoint (OptimizationPanel.panel r) = "" /\
      OptimizationPanel.shown r = []) /\
   (forall data,
      geocoding w placeName 1 [] = Body data ->
      Mapbox.features data = None \/ Mapbox.features data = Some [] ->
      OptimizationPanel.panel r = st /\
      OptimizationPanel.shown r = [OptimizationPanel.LocationNotFound]) /\
   (fails w request = true ->
    OptimizationPanel.panel r = st /\
    OptimizationPanel.shown r = [OptimizationPanel.ErrorAddingWaypoint])).
Proof.
  cbv zeta. unfold OptimizationPanel.addWaypoint.
  split; [|split; [|split; [|split]]].
  - repeat (break_match; cbv beta iota zeta);
      cbn [OptimizationPanel.panel OptimizationPanel.waypoints];
      try (exists []; rewrite app_nil_r; repeat split; auto; fail).
    eexists. split; [reflexivity|]. split; [cbn; lia | discriminate].
  - repeat (break_match; cbv beta iota zeta); cbn; auto.
  - repeat (break_match; cbv beta iota zeta); reflexivity.
  - intros [H|H]; rewrite H; cbn [negb orb]; [reflexivity|].
    rewrite orb_true_r. reflexivity.
  - intros Hp Ht. rewrite Hp, Ht. cbn [negb orb].
    split; [|split].
    + intros data feature rest Hb Hf. rewrite Hb, Hf. repeat split.
    + intros data Hb [Hf|Hf]; rewrite Hb, Hf; split; reflexivity.
    + cbn [fails]. intros Hfail.
      destruct (geocoding w placeName 1 []); try discriminate;
        split; reflexivity.
Qed.

Lemma addWaypoint_witness :
  OptimizationPanel.waypoints
    (OptimizationPanel.panel
       (OptimizationPanel.addWaypoint (Sample.serving [Sample.libraryAve] [])
          1700000000002%N "pk.token" "Library Ave" Sample.oneStop))
  = OptimizationPanel.waypoints Sample.oneStop
    ++ [Sample.stop "1700000000002" "Library Ave, Shelbyville"
          Sample.elsewhere].
Proof.
  destruct (addWaypoint_appends_at_most_one
              (Sample.serving [Sample.libraryAve] []) 1700000000002%N
              "pk.token" "Library Ave" Sample.oneStop)
    as [_ [_ [_ [_ Hadd]]]].
  destruct Hadd as [Hadd _]; [reflexivity..|].
  destruct (Hadd {| Mapbox.features := Some [Sample.libraryAve] |}
              Sample.libraryAve []) as [Hw _]; [reflexivity..|].
  exact Hw.
Defined.




(** ** The access token *)

(** A submitted token that is not blank is stored trimmed and opens the
    map with the trimmed token; after a reload the stored token opens the
    map with the same token again.  A blank submission stores nothing and
    changes nothing, and with nothing stored the form is shown. *)
Theorem submitted_token_survives_reload (token : string)
  (stored : option string) (st : Index.State) :
  let after := Index.submit token stored st in
  (JS.truthy (JS.trim token) = true ->
   fst after = Some (JS.trim token) /\
   Index.render (snd after) = Index.Map (JS.trim token) /\
   Index.render (Index.mount (fst after) Index.initial)
   = Index.Map (JS.trim token)) /\
  (JS.truthy (JS.trim token) = false -> after = (stored, st)) /\
  Index.render (Index.mount None Index.initial) = Index.KeyForm.
Proof.
  cbv zeta. unfold Index.submit, ApiKeyInput.handleSubmit.
  split; [|split; [|reflexivity]].
  - intros Ht. rewrite Ht.
    cbv beta iota delta [fst snd Index.handleApiKeySubmit Index.mount
                         Index.render Index.initial].
    rewrite !Ht. repeat split.
  - intros Ht. rewrite Ht. reflexivity.
Qed.

Lemma submitted_token_witness :
  Index.render
    (Index.mount (fst (Index.submit "  pk.token " None Index.initial))
       Index.initial) = Index.Map "pk.token".
Proof.
  refine (proj2 (proj2 (proj1 (submitted_token_survives_reload
                                 "  pk.token " None Index.initial) _))).
  reflexivity.
Defined.
